(** * ai-codereviewer: the diff-to-review-comment pipeline of [src/main.ts]

    A shallow embedding of [main.ts].  The program is TypeScript, so its
    types are erased when it runs: what [JSON.parse] returns is used as it
    comes.  The embedding therefore has two layers.

    - [JS]: the part of the JavaScript run time the program relies on
      (numbers and their conversions to and from text, [String.prototype.trim],
      [JSON.parse], truthiness, property lookup, conversion to a primitive).
    - [Reviewer]: the functions of [main.ts], one definition per function and
      under the same name, with exceptions as an explicit result and the
      external services (hosting API, completion service, diff parser, glob
      matcher) as arguments. *)

From Stdlib Require Import String Ascii List ZArith Lia Bool DecimalString.
Import ListNotations.

Set Warnings "-register-all".

Local Open Scope list_scope.
Local Open Scope string_scope.

(** ** Text helpers *)

Module Text.

(** The double quote and the line feed, which a string literal cannot hold
    directly. *)
Definition dq : string := String "034"%char EmptyString.
Definition nl : string := String "010"%char EmptyString.
Definition bt : string := String "096"%char EmptyString.

(** [quoted s] is [s] between double quotes. *)
Definition quoted (s : string) : string := dq ++ s ++ dq.

Definition chars : string -> list ascii := list_ascii_of_string.
Definition text : list ascii -> string := string_of_list_ascii.

Fixpoint span (p : ascii -> bool) (l : list ascii) : list ascii * list ascii :=
  match l with
  | c :: r => if p c then let '(a, b) := span p r in (c :: a, b) else ([], l)
  | [] => ([], [])
  end.

Fixpoint strip_prefix (p l : list ascii) : option (list ascii) :=
  match p, l with
  | [], _ => Some l
  | a :: p', b :: l' => if Ascii.eqb a b then strip_prefix p' l' else None
  | _ :: _, [] => None
  end.

Fixpoint strip_any (ps : list (list ascii)) (l : list ascii) : option (list ascii) :=
  match ps with
  | [] => None
  | p :: ps' => match strip_prefix p l with
                | Some r => Some r
                | None => strip_any ps' l
                end
  end.

Fixpoint strip_all (fuel : nat) (ps : list (list ascii)) (l : list ascii) : list ascii :=
  match fuel with
  | O => l
  | S k => match strip_any ps l with
           | Some r => strip_all k ps r
           | None => l
           end
  end.

Definition code (c : ascii) : Z := Z.of_nat (nat_of_ascii c).

Definition is_digit (c : ascii) : bool := (48 <=? code c)%Z && (code c <=? 57)%Z.

Definition is_hex_digit (c : ascii) : bool :=
  is_digit c
  || ((65 <=? code c)%Z && (code c <=? 70)%Z)
  || ((97 <=? code c)%Z && (code c <=? 102)%Z).

Definition hex_digit_value (c : ascii) : Z :=
  if is_digit c then code c - 48
  else if (97 <=? code c)%Z then code c - 87
  else code c - 55.

(** Value of a run of digits in the given base, most significant first. *)
Definition digits_value (base : Z) (l : list ascii) : Z :=
  fold_left (fun acc c => acc * base + hex_digit_value c)%Z l 0%Z.

Definition decimal (n : Z) : string := NilZero.string_of_uint (N.to_uint (Z.to_N n)).

Fixpoint zeros (n : nat) : string :=
  match n with O => "" | S k => String "0" (zeros k) end.

Fixpoint join (sep : string) (l : list string) : string :=
  match l with
  | [] => ""
  | [s] => s
  | s :: r => s ++ sep ++ join sep r
  end.

(** [prefix p s = true] when [s] starts with [p] (from the Standard
    Library); [contains] looks for a contiguous occurrence. *)
Fixpoint contains (p s : string) : bool :=
  prefix p s || match s with
                | EmptyString => false
                | String _ r => contains p r
                end.

End Text.

(** ** The JavaScript run time *)

Module JS.
Import Text.

(** *** Numbers

    A number is NaN, an infinity, or the decimal [mantissa * 10 ^ exponent]
    that its literal denotes.  The value is kept exactly, where the run time
    has binary64: the two agree on the integers up to 2^53 in magnitude, which
    covers line numbers; beyond that the run time rounds, overflows to an
    infinity or underflows to zero, and prints the shortest digits that read
    back, none of which is part of the model, and neither is the sign of
    zero.  What is proved of a number either holds whatever the number is, or
    is stated within that range. *)
Inductive number : Type :=
| NaN
| Infinity (negative : bool)
| Finite (mantissa exponent : Z).

Fixpoint strip_zeros (fuel : nat) (m e : Z) : Z * Z :=
  match fuel with
  | O => (m, e)
  | S k => if (m mod 10 =? 0)%Z then strip_zeros k (m / 10)%Z (e + 1)%Z else (m, e)
  end.

(** The canonical form: no trailing zero in the mantissa, and zero is
    [Finite 0 0]. *)
Definition finite (m e : Z) : number :=
  if (m =? 0)%Z then Finite 0 0
  else let '(m', e') := strip_zeros (Z.to_nat (Z.log2 (Z.abs m))) m e in Finite m' e'.

Definition normal (x : number) : number :=
  match x with
  | Finite m e => finite m e
  | _ => x
  end.

Definition int (z : Z) : number := finite z 0.

(** [Number.prototype.toString] (radix 10), ECMA-262 Number::toString. *)
Definition Number_toString (x : number) : string :=
  match normal x with
  | NaN => "NaN"
  | Infinity false => "Infinity"
  | Infinity true => "-Infinity"
  | Finite m e =>
      if (m =? 0)%Z then "0" else
      let sign := if (m <? 0)%Z then "-" else "" in
      let ds := decimal (Z.abs m) in
      let k := Z.of_nat (String.length ds) in
      let n := (k + e)%Z in
      sign ++
      (if (k <=? n)%Z && (n <=? 21)%Z then ds ++ zeros (Z.to_nat (n - k))
       else if (0 <? n)%Z && (n <=? 21)%Z then
         substring 0 (Z.to_nat n) ds ++ "." ++ substring (Z.to_nat n) (Z.to_nat (k - n)) ds
       else if (-6 <? n)%Z && (n <=? 0)%Z then "0." ++ zeros (Z.to_nat (- n)) ++ ds
       else
         let ex := (n - 1)%Z in
         let es := (if (ex <? 0)%Z then "-" else "+") ++ decimal (Z.abs ex) in
         if (k =? 1)%Z then ds ++ "e" ++ es
         else substring 0 1 ds ++ "." ++ substring 1 (Z.to_nat (k - 1)) ds ++ "e" ++ es)
  end.

(** A number is truthy unless it is zero or NaN. *)
Definition number_truthy (x : number) : bool :=
  match x with
  | NaN => false
  | Infinity _ => true
  | Finite m _ => negb (m =? 0)%Z
  end.

(** *** White space and [trim]

    WhiteSpace and LineTerminator of ECMA-262, as the bytes of their UTF-8
    encoding. *)
Definition whitespace : list (list ascii) :=
  [ [" "%char]; ["009"%char]; ["010"%char]; ["011"%char]; ["012"%char]; ["013"%char];
    ["194"%char; "160"%char];
    ["225"%char; "154"%char; "128"%char];
    ["226"%char; "128"%char; "128"%char]; ["226"%char; "128"%char; "129"%char];
    ["226"%char; "128"%char; "130"%char]; ["226"%char; "128"%char; "131"%char];
    ["226"%char; "128"%char; "132"%char]; ["226"%char; "128"%char; "133"%char];
    ["226"%char; "128"%char; "134"%char]; ["226"%char; "128"%char; "135"%char];
    ["226"%char; "128"%char; "136"%char]; ["226"%char; "128"%char; "137"%char];
    ["226"%char; "128"%char; "138"%char];
    ["226"%char; "128"%char; "168"%char]; ["226"%char; "128"%char; "169"%char];
    ["226"%char; "128"%char; "175"%char];
    ["226"%char; "129"%char; "159"%char];
    ["227"%char; "128"%char; "128"%char];
    ["239"%char; "187"%char; "191"%char] ].

Definition trim_start (l : list ascii) : list ascii :=
  strip_all (List.length l) whitespace l.

Definition trim_end (l : list ascii) : list ascii :=
  rev (strip_all (List.length l) (map (@rev ascii) whitespace) (rev l)).

(** [String.prototype.trim]. *)
Definition trim (s : string) : string := text (trim_end (trim_start (chars s))).

(** *** Exceptions

    A thrown exception is an explicit result.  [Failure] stands for what an
    external service raises (network, authentication, rate limit). *)
Inductive exn : Type :=
| TypeError (message : string)
| SyntaxError (message : string)
| Failure (message : string).

Inductive result (A : Type) : Type :=
| Ok (a : A)
| Throw (e : exn).
Arguments Ok {A} a.
Arguments Throw {A} e.

Definition bind {A B : Type} (r : result A) (k : A -> result B) : result B :=
  match r with
  | Ok a => k a
  | Throw e => Throw e
  end.

Notation "x <- r ;; k" := (bind r (fun x => k))
  (at level 61, r at next level, right associativity).

(** *** String to number

    StringToNumber of ECMA-262: the text is trimmed; the empty text is 0; a
    literal in base 16, 8 or 2 has no sign; a decimal literal may carry a
    sign, may leave out either side of the point and may name Infinity;
    anything else is NaN. *)
Definition scan_exponent (l : list ascii) : option Z * list ascii :=
  match l with
  | c :: r =>
      if Ascii.eqb c "e" || Ascii.eqb c "E" then
        let '(neg, r') := match r with
                          | "-"%char :: r' => (true, r')
                          | "+"%char :: r' => (false, r')
                          | _ => (false, r)
                          end in
        let '(ds, rest) := span is_digit r' in
        match ds with
        | [] => (None, l)
        | _ => (Some (if neg then - digits_value 10 ds else digits_value 10 ds)%Z, rest)
        end
      else (None, l)
  | [] => (None, l)
  end.

(** Integer digits, fraction digits when there is a point, exponent when
    there is one, and what follows. *)
Definition scan_decimal (l : list ascii)
  : list ascii * option (list ascii) * option Z * list ascii :=
  let '(ip, r1) := span is_digit l in
  let '(fp, r2) := match r1 with
                   | "."%char :: r => let '(f, r') := span is_digit r in (Some f, r')
                   | _ => (None, r1)
                   end in
  let '(ex, r3) := scan_exponent r2 in
  (ip, fp, ex, r3).

Definition decimal_value (neg : bool) (ip : list ascii) (fp : option (list ascii))
           (ex : option Z) : number :=
  let f := match fp with Some f => f | None => [] end in
  let m := digits_value 10 (ip ++ f)%list in
  let e := (match ex with Some e => e | None => 0 end - Z.of_nat (List.length f))%Z in
  finite (if neg then - m else m)%Z e.

Definition is_nil {A : Type} (l : list A) : bool :=
  match l with [] => true | _ => false end.

Definition radix_literal (base : Z) (ok : ascii -> bool) (ds : list ascii) : number :=
  if negb (is_nil ds) && forallb ok ds then int (digits_value base ds) else NaN.

Definition is_octal_digit (c : ascii) : bool := (48 <=? code c)%Z && (code c <=? 55)%Z.
Definition is_binary_digit (c : ascii) : bool := (48 <=? code c)%Z && (code c <=? 49)%Z.

Definition signed_decimal (l : list ascii) : number :=
  let '(neg, body) := match l with
                      | "-"%char :: r => (true, r)
                      | "+"%char :: r => (false, r)
                      | _ => (false, l)
                      end in
  if String.eqb (text body) "Infinity" then Infinity neg else
  let '(ip, fp, ex, rest) := scan_decimal body in
  let some_digit := negb (is_nil ip)
                    || match fp with Some f => negb (is_nil f) | None => false end in
  if some_digit && is_nil rest then decimal_value neg ip fp ex else NaN.

Definition StringToNumber (s : string) : number :=
  match trim_end (trim_start (chars s)) with
  | [] => Finite 0 0
  | "0"%char :: "x"%char :: ds | "0"%char :: "X"%char :: ds => radix_literal 16 is_hex_digit ds
  | "0"%char :: "o"%char :: ds | "0"%char :: "O"%char :: ds => radix_literal 8 is_octal_digit ds
  | "0"%char :: "b"%char :: ds | "0"%char :: "B"%char :: ds => radix_literal 2 is_binary_digit ds
  | l => signed_decimal l
  end.

(** *** Values

    The values [JSON.parse] can produce.  The members of an object are kept
    in source order with their duplicates; the last one wins on lookup, as
    a later member overwrites an earlier one.  [undefined] is the [None] of
    [option value]. *)
Inductive value : Type :=
| Null
| Bool (b : bool)
| Num (n : number)
| Str (s : string)
| Arr (items : list value)
| Obj (members : list (string * value)).

(** ToBoolean. *)
Definition truthy (v : value) : bool :=
  match v with
  | Null => false
  | Bool b => b
  | Num n => number_truthy n
  | Str s => negb (String.eqb s "")
  | Arr _ | Obj _ => true
  end.

Fixpoint lookup (k : string) (ms : list (string * value)) : option value :=
  match ms with
  | [] => None
  | (k', v) :: r => match lookup k r with
                    | Some w => Some w
                    | None => if String.eqb k k' then Some v else None
                    end
  end.

(** [v.name] for a name that no prototype defines, as [reviewComment] and
    [lineNumber]: reading it off [null] throws, an object answers with its
    own member, every other value answers [undefined]. *)
Definition get (v : value) (name : string) : result (option value) :=
  match v with
  | Null => Throw (TypeError ("Cannot read properties of null (reading '" ++ name ++ "')"))
  | Obj ms => Ok (lookup name ms)
  | _ => Ok None
  end.

(** ToString.  An array is joined with commas, [null] elements left empty
    ([Array.prototype.join]).  An object answers through
    [Object.prototype.toString], unless a member of its own hides that
    method: a member is never callable, and the conversion throws. *)
Fixpoint ToString (v : value) : result string :=
  match v with
  | Null => Ok "null"
  | Bool true => Ok "true"
  | Bool false => Ok "false"
  | Num n => Ok (Number_toString n)
  | Str s => Ok s
  | Arr items =>
      ss <- (fix each (l : list value) : result (list string) :=
               match l with
               | [] => Ok []
               | i :: r =>
                   s <- match i with Null => Ok "" | _ => ToString i end ;;
                   ss <- each r ;;
                   Ok (s :: ss)
               end) items ;;
      Ok (join "," ss)
  | Obj ms =>
      match lookup "toString" ms with
      | Some _ => Throw (TypeError "Cannot convert object to primitive value")
      | None => Ok "[object Object]"
      end
  end.

(** ToString of a value that may be [undefined]. *)
Definition ToString_opt (o : option value) : result string :=
  match o with
  | None => Ok "undefined"
  | Some v => ToString v
  end.

(** [Number(x)]: ToNumber, through ToPrimitive for arrays and objects. *)
Definition Number (o : option value) : result number :=
  match o with
  | None => Ok NaN
  | Some Null => Ok (Finite 0 0)
  | Some (Bool b) => Ok (if b then Finite 1 0 else Finite 0 0)
  | Some (Num n) => Ok n
  | Some (Str s) => Ok (StringToNumber s)
  | Some v => s <- ToString v ;; Ok (StringToNumber s)
  end.

(** *** [JSON.parse]

    A lexer that reads one character at a time, then a parser over the
    tokens with an explicit stack; both recurse on their input only.  A text
    that is not JSON gives [None], which is the SyntaxError of the run time.
    Strings are byte strings: a [\u] escape is written as the UTF-8 bytes of
    its code point, two escapes that form a surrogate pair as one code
    point. *)
Inductive token : Type :=
| TLBracket | TRBracket | TLBrace | TRBrace | TColon | TComma
| TString (s : string)
| TScalar (v : value).

(** What a string literal holds: a byte as written, or the code unit of a
    [\u] escape. *)
Inductive item : Type :=
| Byte (c : ascii)
| Unit (u : Z).

Inductive lexing : Type :=
| Between
| InWord (acc : list ascii)
| InString (acc : list item)
| InEscape (acc : list item)
| InUnicode (acc : list item) (hex : list ascii).

Definition byte_of (z : Z) : ascii := ascii_of_nat (Z.to_nat z).

Definition utf8 (cp : Z) : list ascii :=
  if (cp <? 128)%Z then [byte_of cp]
  else if (cp <? 2048)%Z then
    [byte_of (192 + cp / 64); byte_of (128 + cp mod 64)]
  else if (cp <? 65536)%Z then
    [byte_of (224 + cp / 4096); byte_of (128 + (cp / 64) mod 64); byte_of (128 + cp mod 64)]
  else
    [byte_of (240 + cp / 262144); byte_of (128 + (cp / 4096) mod 64);
     byte_of (128 + (cp / 64) mod 64); byte_of (128 + cp mod 64)].

Definition is_high (u : Z) : bool := (55296 <=? u)%Z && (u <=? 56319)%Z.
Definition is_low (u : Z) : bool := (56320 <=? u)%Z && (u <=? 57343)%Z.

Fixpoint encode (l : list item) : list ascii :=
  match l with
  | [] => []
  | Byte c :: r => c :: encode r
  | Unit hi :: r =>
      match r with
      | Unit lo :: r' =>
          if is_high hi && is_low lo
          then (utf8 (65536 + (hi - 55296) * 1024 + (lo - 56320)) ++ encode r')%list
          else (utf8 hi ++ encode r)%list
      | _ => (utf8 hi ++ encode r)%list
      end
  end.

Definition is_json_space (c : ascii) : bool :=
  (code c =? 32)%Z || (code c =? 9)%Z || (code c =? 10)%Z || (code c =? 13)%Z.

(** The characters of a number or of [true], [false], [null]. *)
Definition is_word_char (c : ascii) : bool :=
  is_digit c
  || ((65 <=? code c)%Z && (code c <=? 90)%Z)
  || ((97 <=? code c)%Z && (code c <=? 122)%Z)
  || Ascii.eqb c "+" || Ascii.eqb c "-" || Ascii.eqb c ".".

(** The number grammar of JSON: an optional minus, an integer part without
    a leading zero, a fraction with at least one digit, an exponent. *)
Definition json_number (w : list ascii) : option number :=
  let '(neg, body) := match w with
                      | "-"%char :: r => (true, r)
                      | _ => (false, w)
                      end in
  let '(ip, fp, ex, rest) := scan_decimal body in
  let int_ok := match ip with
                | [] => false
                | ["0"%char] => true
                | c :: _ => negb (Ascii.eqb c "0")
                end in
  let frac_ok := match fp with Some f => negb (is_nil f) | None => true end in
  if int_ok && frac_ok && is_nil rest then Some (decimal_value neg ip fp ex) else None.

Definition word_token (w : list ascii) : option token :=
  let s := text w in
  if String.eqb s "true" then Some (TScalar (Bool true))
  else if String.eqb s "false" then Some (TScalar (Bool false))
  else if String.eqb s "null" then Some (TScalar Null)
  else option_map (fun n => TScalar (Num n)) (json_number w).

(** A character met between two tokens. *)
Definition lex_between (c : ascii) : option (lexing * list token) :=
  if is_json_space c then Some (Between, [])
  else if Ascii.eqb c "[" then Some (Between, [TLBracket])
  else if Ascii.eqb c "]" then Some (Between, [TRBracket])
  else if Ascii.eqb c "{" then Some (Between, [TLBrace])
  else if Ascii.eqb c "}" then Some (Between, [TRBrace])
  else if Ascii.eqb c ":" then Some (Between, [TColon])
  else if Ascii.eqb c "," then Some (Between, [TComma])
  else if Ascii.eqb c "034" then Some (InString [], [])
  else if is_word_char c then Some (InWord [c], [])
  else None.

Definition escape (c : ascii) : option ascii :=
  if Ascii.eqb c "034" then Some "034"%char
  else if Ascii.eqb c "\" then Some "\"%char
  else if Ascii.eqb c "/" then Some "/"%char
  else if Ascii.eqb c "b" then Some "008"%char
  else if Ascii.eqb c "f" then Some "012"%char
  else if Ascii.eqb c "n" then Some "010"%char
  else if Ascii.eqb c "r" then Some "013"%char
  else if Ascii.eqb c "t" then Some "009"%char
  else None.

Definition lex_step (st : lexing) (c : ascii) : option (lexing * list token) :=
  match st with
  | Between => lex_between c
  | InWord acc =>
      if is_word_char c then Some (InWord (c :: acc), [])
      else
        match word_token (rev acc), lex_between c with
        | Some t, Some (st', out) => Some (st', t :: out)
        | _, _ => None
        end
  | InString acc =>
      if Ascii.eqb c "034" then Some (Between, [TString (text (encode (rev acc)))])
      else if Ascii.eqb c "\" then Some (InEscape acc, [])
      else if (code c <? 32)%Z then None
      else Some (InString (Byte c :: acc), [])
  | InEscape acc =>
      if Ascii.eqb c "u" then Some (InUnicode acc [], [])
      else option_map (fun e => (InString (Byte e :: acc), [])) (escape c)
  | InUnicode acc hex =>
      if is_hex_digit c then
        let hex' := (hex ++ [c])%list in
        if (List.length hex' =? 4)%nat
        then Some (InString (Unit (digits_value 16 hex') :: acc), [])
        else Some (InUnicode acc hex', [])
      else None
  end.

Definition lex_end (st : lexing) : option (list token) :=
  match st with
  | Between => Some []
  | InWord acc => option_map (fun t => [t]) (word_token (rev acc))
  | _ => None
  end.

Fixpoint lex (st : lexing) (l : list ascii) : option (list token) :=
  match l with
  | [] => lex_end st
  | c :: r =>
      match lex_step st c with
      | Some (st', out) => option_map (app out) (lex st' r)
      | None => None
      end
  end.

(** The containers that are open, innermost first. *)
Inductive frame : Type :=
| InArray (done : list value)
| InObject (done : list (string * value)) (key : string).

(** What may come next. *)
Inductive expect : Type :=
| AValue
| AValueOrClose
| AKeyOrClose
| AKey (done : list (string * value))
| AColon (done : list (string * value)) (key : string)
| ACommaOrClose
| AMemberEnd (done : list (string * value))
| AnEnd (v : value).

Definition deliver (v : value) (stack : list frame) : expect * list frame :=
  match stack with
  | [] => (AnEnd v, [])
  | InArray done :: st => (ACommaOrClose, InArray (v :: done) :: st)
  | InObject done k :: st => (AMemberEnd ((k, v) :: done), st)
  end.

Definition start_value (t : token) (stack : list frame) : option (expect * list frame) :=
  match t with
  | TScalar v => Some (deliver v stack)
  | TString s => Some (deliver (Str s) stack)
  | TLBracket => Some (AValueOrClose, InArray [] :: stack)
  | TLBrace => Some (AKeyOrClose, stack)
  | _ => None
  end.

Definition parse_step (e : expect) (stack : list frame) (t : token)
  : option (expect * list frame) :=
  match e, t with
  | AValue, _ => start_value t stack
  | AValueOrClose, TRBracket =>
      match stack with
      | InArray done :: st => Some (deliver (Arr (rev done)) st)
      | _ => None
      end
  | AValueOrClose, _ => start_value t stack
  | AKeyOrClose, TRBrace => Some (deliver (Obj []) stack)
  | AKeyOrClose, TString k => Some (AColon [] k, stack)
  | AKey done, TString k => Some (AColon done k, stack)
  | AColon done k, TColon => Some (AValue, InObject done k :: stack)
  | ACommaOrClose, TComma => Some (AValue, stack)
  | ACommaOrClose, TRBracket =>
      match stack with
      | InArray done :: st => Some (deliver (Arr (rev done)) st)
      | _ => None
      end
  | AMemberEnd done, TComma => Some (AKey done, stack)
  | AMemberEnd done, TRBrace => Some (deliver (Obj (rev done)) stack)
  | _, _ => None
  end.

Fixpoint parse (e : expect) (stack : list frame) (ts : list token) : option value :=
  match ts with
  | [] => match e with AnEnd v => Some v | _ => None end
  | t :: r =>
      match parse_step e stack t with
      | Some (e', stack') => parse e' stack' r
      | None => None
      end
  end.

Definition JSON_parse (s : string) : option value :=
  match lex Between (chars s) with
  | Some ts => parse AValue [] ts
  | None => None
  end.

(** [Array.prototype.flatMap] for a callback that answers with nothing or
    with one element; a callback that throws ends the traversal. *)
Fixpoint flatMap {A B : Type} (f : A -> result (list B)) (l : list A) : result (list B) :=
  match l with
  | [] => Ok []
  | a :: r =>
      x <- f a ;;
      xs <- flatMap f r ;;
      Ok (x ++ xs)%list
  end.

(** [String.prototype.split] on a one-character separator. *)
Fixpoint split (sep : ascii) (s : string) : list string :=
  match s with
  | EmptyString => [""]
  | String c r =>
      if Ascii.eqb c sep then "" :: split sep r
      else match split sep r with
           | h :: t => String c h :: t
           | [] => [String c ""]
           end
  end.

End JS.

(** ** The program *)

Module Change.
(** Modelled from the spec: the change line of the diff parser library,
    whose declarations are not among the sources.  A line carries its text
    and one or two line numbers; [main.ts] reads them as [ln] and [ln2]. *)
Record t : Type := { ln : option JS.number; ln2 : option JS.number; content : string }.
End Change.

Module Chunk.
(** Modelled from the spec: a hunk of the diff parser library, with its raw
    header text and its change lines. *)
Record t : Type := { content : string; changes : list Change.t }.
End Chunk.

Module File.
(** Modelled from the spec: one file of a parsed diff.  [to] is the target
    path; it may be missing, and a deleted file has ["/dev/null"]. *)
Record t : Type := { to : option string; chunks : list Chunk.t }.
End File.

Module Reviewer.
Import Text JS.

Record PRDetails : Type := {
  owner : string;
  repo : string;
  pull_number : Z;
  title : string;
  description : string
}.

(** An element of the array that [analyzeCode] returns and [createReview]
    receives. *)
Record Comment : Type := { body : string; path : string; line : number }.

(** The event payload at [GITHUB_EVENT_PATH], as far as it is read. *)
Record Event : Type := {
  repository_owner_login : string;
  repository_name : string;
  number_ : Z;
  action : string;
  before : string;
  after : string
}.

(** The [data] of [octokit.pulls.get], as far as it is read: both fields
    may be [null]. *)
Record PullData : Type := { data_title : option string; data_body : option string }.

(** The argument of [octokit.pulls.createReview]. *)
Record Review : Type := {
  review_owner : string;
  review_repo : string;
  review_pull_number : Z;
  review_comments : list Comment;
  review_event : string
}.

(** The hosting API: every call may throw. *)
Record Octokit : Type := {
  pulls_get : string -> string -> Z -> result PullData;
  pulls_get_diff : string -> string -> Z -> result (option string);
  repos_compareCommits : string -> string -> string -> string -> result string;
  pulls_createReview : Review -> result unit
}.

(** The reply of [openai.chat.completions.create], as far as it is read:
    [choices[0].message?.content]. *)
Record Message : Type := { message_content : option string }.
Record Choice : Type := { message : option Message }.
Record ChatCompletion : Type := { choices : list Choice }.

(** What a run of [analyzeCode] has done so far: the prompts it has sent to
    the completion service, oldest first, and its local array [comments]. *)
Record Analysis : Type := { sent : list string; comments : list Comment }.

Definition start : Analysis := {| sent := []; comments := [] |}.

(** A step of the loop: it changes the state and returns or throws. *)
Definition M (A : Type) : Type := Analysis -> Analysis * result A.

Definition ret {A : Type} (a : A) : M A := fun st => (st, Ok a).

Definition lift {A : Type} (r : result A) : M A := fun st => (st, r).

Definition andThen {A B : Type} (m : M A) (k : A -> M B) : M B :=
  fun st => match m st with
            | (st', Ok a) => k a st'
            | (st', Throw e) => (st', Throw e)
            end.

Notation "'let*' x ':=' m 'in' k" := (andThen m (fun x => k))
  (at level 10, x name, m at level 100, k at level 200).

(** [for (const a of l) body(a)]. *)
Fixpoint for_each {A : Type} (body : A -> M unit) (l : list A) : M unit :=
  match l with
  | [] => ret tt
  | a :: r => let* _ := body a in for_each body r
  end.

(** [comments.push(...newComments)]. *)
Definition push (newComments : list Comment) : M unit :=
  fun st => ({| sent := sent st; comments := comments st ++ newComments |}, Ok tt).

(** [o === s] for a string that may be [undefined]. *)
Definition strictEq (o : option string) (s : string) : bool :=
  match o with
  | Some p => String.eqb p s
  | None => false
  end.

Definition undefined_or (o : option string) : string :=
  match o with Some s => s | None => "undefined" end.

(** [`${c.ln ? c.ln : c.ln2} ${c.content}`]. *)
Definition renderChange (c : Change.t) : string :=
  let shown := match Change.ln c with
               | Some n => if number_truthy n then Some n else Change.ln2 c
               | None => Change.ln2 c
               end in
  undefined_or (option_map Number_toString shown) ++ " " ++ Change.content c.

Definition instructions : list string :=
  [ "Your task is to review pull requests. Instructions:";
    "- Provide the response in following JSON format:  [{" ++ quoted "lineNumber"
      ++ ":  <line_number>, " ++ quoted "reviewComment" ++ ": "
      ++ quoted "<review comment>" ++ "}]";
    "- Do not give positive comments or compliments.";
    "- Provide comments and suggestions ONLY if there is something to improve, otherwise return an empty array.";
    "- Write the comment in GitHub Markdown format.";
    "- Use the given description only for the overall context and only comment the code.";
    "- IMPORTANT: NEVER suggest adding comments to the code.";
    "" ].

Definition createPrompt (file : File.t) (chunk : Chunk.t) (prDetails : PRDetails) : string :=
  join nl
    (app instructions
     [ "Review the following code diff in the file " ++ quoted (undefined_or (File.to file))
         ++ " and take the pull request title and description into account when writing the response.";
       "  ";
       "Pull request title: " ++ title prDetails;
       "Pull request description:";
       "";
       "---";
       description prDetails;
       "---";
       "";
       "Git diff to review:";
       "";
       bt ++ bt ++ bt ++ "diff";
       Chunk.content chunk;
       join nl (map renderChange (Chunk.changes chunk));
       bt ++ bt ++ bt;
       "" ]).

(** [response.choices[0].message?.content?.trim() || "[]"], where reading
    [message] off a missing first choice throws. *)
Definition replyText (response : ChatCompletion) : result string :=
  match choices response with
  | [] => Throw (TypeError "Cannot read properties of undefined (reading 'message')")
  | first :: _ =>
      let trimmed := match message first with
                     | Some m => option_map trim (message_content m)
                     | None => None
                     end in
      Ok (match trimmed with
          | Some s => if String.eqb s "" then "[]" else s
          | None => "[]"
          end)
  end.

(** The body of the [try] of [getAIResponse]. *)
Definition parseReply (reply : result ChatCompletion) : result value :=
  response <- reply ;;
  res <- replyText response ;;
  match JSON_parse res with
  | Some v => Ok v
  | None => Throw (SyntaxError "Unexpected token in JSON")
  end.

(** [createComment]: [flatMap] is a method of arrays only. *)
Definition createComment (file : File.t) (chunk : Chunk.t) (aiResponses : value)
  : result (list Comment) :=
  match aiResponses with
  | Arr items =>
      flatMap (fun aiResponse =>
                 match File.to file with
                 | None => Ok []
                 | Some p =>
                     if String.eqb p "" then Ok [] else
                     reviewComment <- get aiResponse "reviewComment" ;;
                     text <- ToString_opt reviewComment ;;
                     lineNumber <- get aiResponse "lineNumber" ;;
                     n <- Number lineNumber ;;
                     Ok [ {| body := "[GPT-REVIEW] " ++ text; path := p; line := n |} ]
                 end) items
  | _ => Throw (TypeError "aiResponses.flatMap is not a function")
  end.

Section Pipeline.

(** The completion service: what the call number [k] (from 0) answers to
    a prompt, a reply or an exception. *)
Variable openai : nat -> string -> result ChatCompletion.

(** The glob matcher [minimatch(path, pattern)] and the diff parser
    [parseDiff(text)], libraries that are not among the sources. *)
Variable minimatch : string -> string -> bool.
Variable parseDiff : string -> result (list File.t).

Variable octokit : Octokit.

(** [JSON.parse(readFileSync(process.env.GITHUB_EVENT_PATH, "utf8"))]. *)
Variable readEvent : result Event.

(** [core.getInput("exclude")]. *)
Variable exclude : string.

Definition getPRDetails : result PRDetails :=
  ev <- readEvent ;;
  prResponse <- pulls_get octokit (repository_owner_login ev) (repository_name ev) (number_ ev) ;;
  Ok {| owner := repository_owner_login ev;
        repo := repository_name ev;
        pull_number := number_ ev;
        title := match data_title prResponse with Some t => t | None => "" end;
        description := match data_body prResponse with Some b => b | None => "" end |}.

Definition getDiff (owner repo : string) (pull_number : Z) : result (option string) :=
  pulls_get_diff octokit owner repo pull_number.

(** [getAIResponse]: one call of the service; whatever the [try] throws
    is caught and becomes [null]. *)
Definition getAIResponse (prompt : string) : M value :=
  fun st =>
    let reply := openai (List.length (sent st)) prompt in
    ({| sent := sent st ++ [prompt]; comments := comments st |},
     Ok (match parseReply reply with
         | Ok v => v
         | Throw _ => Null
         end)).

(** The body of the inner loop of [analyzeCode]. *)
Definition reviewChunk (file : File.t) (prDetails : PRDetails) (chunk : Chunk.t) : M unit :=
  let prompt := createPrompt file chunk prDetails in
  let* aiResponse := getAIResponse prompt in
  if truthy aiResponse then
    let* newComments := lift (createComment file chunk aiResponse) in
    push newComments
  else ret tt.

(** The body of the outer loop. *)
Definition reviewFile (prDetails : PRDetails) (file : File.t) : M unit :=
  if strictEq (File.to file) "/dev/null" then ret tt
  else for_each (reviewChunk file prDetails) (File.chunks file).

Definition analyzeCode (parsedDiff : list File.t) (prDetails : PRDetails)
  : Analysis * result (list Comment) :=
  match for_each (reviewFile prDetails) parsedDiff start with
  | (st, Ok _) => (st, Ok (comments st))
  | (st, Throw e) => (st, Throw e)
  end.

(** [createReviewComment]: the one call of [octokit.pulls.createReview],
    returned with its outcome. *)
Definition createReviewComment (owner repo : string) (pull_number : Z)
           (comments : list Comment) : list Review * result unit :=
  let call := {| review_owner := owner; review_repo := repo;
                 review_pull_number := pull_number;
                 review_comments := comments; review_event := "COMMENT" |} in
  ([call], pulls_createReview octokit call).

Definition excludePatterns : list string := map trim (split "," exclude).

Definition shouldInclude (file : File.t) : bool :=
  negb (existsb (fun pattern =>
                   minimatch (match File.to file with Some p => p | None => "" end) pattern)
                excludePatterns).

(** What a run of [main] leaves behind: what [analyzeCode] did (nothing
    when it was not reached), the calls of [createReview] that were made, and how
    the run ended, normally or with the exception that makes the process
    exit with code 1. *)
Record Run : Type := { analysis : Analysis; reviews : list Review; exit : result unit }.

Definition stop (r : result unit) : Run :=
  {| analysis := start; reviews := []; exit := r |}.

(** [main], from the parsed diff on. *)
Definition review (prDetails : PRDetails) (parsedDiff : list File.t) : Run :=
  let filteredDiff := filter shouldInclude parsedDiff in
  match analyzeCode filteredDiff prDetails with
  | (st, Throw e) => {| analysis := st; reviews := []; exit := Throw e |}
  | (st, Ok comments) =>
      if (0 <? List.length comments)%nat then
        let '(calls, outcome) :=
          createReviewComment (owner prDetails) (repo prDetails) (pull_number prDetails)
                              comments in
        {| analysis := st; reviews := calls; exit := outcome |}
      else {| analysis := st; reviews := []; exit := Ok tt |}
  end.

Definition main : Run :=
  match getPRDetails with
  | Throw e => stop (Throw e)
  | Ok prDetails =>
  match readEvent with
  | Throw e => stop (Throw e)
  | Ok eventData =>
  let fetched : result (option (option string)) :=
    if String.eqb (action eventData) "opened" then
      diff <- getDiff (owner prDetails) (repo prDetails) (pull_number prDetails) ;;
      Ok (Some diff)
    else if String.eqb (action eventData) "synchronize" then
      data <- repos_compareCommits octokit (owner prDetails) (repo prDetails)
                (before eventData) (after eventData) ;;
      Ok (Some (Some data))
    else Ok None in
  match fetched with
  | Throw e => stop (Throw e)
  | Ok None => stop (Ok tt)
  | Ok (Some None) => stop (Ok tt)
  | Ok (Some (Some diff)) =>
      if String.eqb diff "" then stop (Ok tt) else
      match parseDiff diff with
      | Throw e => stop (Throw e)
      | Ok parsedDiff => review prDetails parsedDiff
      end
  end
  end
  end.

End Pipeline.

End Reviewer.

(** ** What the specification talks about

    Notions that the specification uses and the program does not define. *)

Module Spec.
Import Text JS Reviewer.

(** The deleted-file sentinel. *)
Definition deleted (file : File.t) : bool :=
  match File.to file with
  | Some p => String.eqb p "/dev/null"
  | None => false
  end.

(** The chunks that [analyzeCode] visits, in order, each with its file. *)
Definition work (parsedDiff : list File.t) : list (File.t * Chunk.t) :=
  flat_map (fun file => if deleted file then [] else map (pair file) (File.chunks file))
           parsedDiff.

(** The body of the loop over [work]. *)
Definition step (openai : nat -> string -> result ChatCompletion) (prDetails : PRDetails)
           (fc : File.t * Chunk.t) : M unit :=
  reviewChunk openai (fst fc) prDetails (snd fc).

(** A reply whose first choice carries the text [s]. *)
Definition reply (s : string) : result ChatCompletion :=
  Ok {| choices := [ {| message := Some {| message_content := Some s |} |} ] |}.

(** The reply of the round trip of the specification. *)
Definition reply12 : string :=
  "[{" ++ quoted "lineNumber" ++ ":" ++ quoted "12" ++ "," ++ quoted "reviewComment" ++ ":"
    ++ quoted "fix this" ++ "}]".

(** The text of a reply, when it has one. *)
Definition replyContent (r : result ChatCompletion) : option string :=
  match r with
  | Ok {| choices := {| message := Some {| message_content := Some s |} |} :: _ |} => Some s
  | _ => None
  end.

(** A reply that cannot be read at all: the call failed, there is no
    choice or no text, the text is blank, or it is not JSON. *)
Definition unusable (r : result ChatCompletion) : bool :=
  match r with
  | Throw _ => true
  | Ok {| choices := [] |} => true
  | Ok _ =>
      match replyContent r with
      | None => true
      | Some s =>
          String.eqb (trim s) ""
          || match JSON_parse (trim s) with None => true | Some _ => false end
      end
  end.

(** The expected shape: an array of objects that have a [lineNumber] and a
    [reviewComment]. *)
Definition isSuggestion (v : value) : bool :=
  match v with
  | Obj ms =>
      match lookup "lineNumber" ms, lookup "reviewComment" ms with
      | Some _, Some _ => true
      | _, _ => false
      end
  | _ => false
  end.

Definition expectedShape (v : value) : bool :=
  match v with
  | Arr items => forallb isSuggestion items
  | _ => false
  end.

(** The state after a chunk that sent [prompt] and added no comment. *)
Definition skipped (prompt : string) (st : Analysis) : Analysis :=
  {| sent := sent st ++ [prompt]; comments := comments st |}.

(** A number that is an integer and is not negative. *)
Definition nonNegativeInteger (n : number) : bool :=
  match normal n with
  | Finite m e => (0 <=? m)%Z && (0 <=? e)%Z
  | _ => false
  end.

(** The text that a suggestion contributes to a comment body, and the line
    it names. *)
Definition suggestionText (suggestion : value) : result string :=
  reviewComment <- get suggestion "reviewComment" ;;
  ToString_opt reviewComment.

Definition suggestionLine (suggestion : value) : result number :=
  lineNumber <- get suggestion "lineNumber" ;;
  Number lineNumber.

(** The line number of a change as the specification words it: the [ln]
    field when present, otherwise the [ln2] field. *)
Definition specLineNumber (c : Change.t) : option number :=
  match Change.ln c with
  | Some n => Some n
  | None => Change.ln2 c
  end.

Definition specRender (c : Change.t) : string :=
  undefined_or (option_map Number_toString (specLineNumber c)) ++ " " ++ Change.content c.

(** The same with the test that the program makes: a number that is zero
    or NaN counts as missing. *)
Definition shownLineNumber (c : Change.t) : option number :=
  match Change.ln c with
  | Some n => if number_truthy n then Some n else Change.ln2 c
  | None => Change.ln2 c
  end.

Definition shownRender (c : Change.t) : string :=
  undefined_or (option_map Number_toString (shownLineNumber c)) ++ " " ++ Change.content c.

(** What [getAIResponse] returns for a reply. *)
Definition answer (r : result ChatCompletion) : value :=
  match parseReply r with
  | Ok v => v
  | Throw _ => Null
  end.

(** Where a comment comes from: a suggestion of the array that the service
    returned for a chunk of a file of the diff. *)
Inductive Origin (openai : nat -> string -> result ChatCompletion) (prDetails : PRDetails)
          (parsedDiff : list File.t) (c : Comment) : Prop :=
| origin (file : File.t) (chunk : Chunk.t) (call : nat) (items : list value)
         (suggestion : value) (text : string)
         (in_diff : In file parsedDiff)
         (in_file : In chunk (File.chunks file))
         (not_deleted : deleted file = false)
         (answered : answer (openai call (createPrompt file chunk prDetails)) = Arr items)
         (suggested : In suggestion items)
         (path_is_target : File.to file = Some (path c))
         (path_not_empty : path c <> "")
         (text_is_comment : suggestionText suggestion = Ok text)
         (body_is_prefixed : body c = "[GPT-REVIEW] " ++ text)
         (line_is_number : suggestionLine suggestion = Ok (line c)).

(** The fixed text of the prompt, around what is embedded. *)
Definition beforePath : string :=
  join nl instructions ++ nl ++ "Review the following code diff in the file " ++ dq.

Definition afterPath : string :=
  dq ++ " and take the pull request title and description into account when writing the response."
     ++ nl ++ "  " ++ nl ++ "Pull request title: ".

Definition afterTitle : string :=
  nl ++ "Pull request description:" ++ nl ++ nl ++ "---" ++ nl.

Definition afterDescription : string :=
  nl ++ "---" ++ nl ++ nl ++ "Git diff to review:" ++ nl ++ nl ++ bt ++ bt ++ bt ++ "diff" ++ nl.

Definition closing : string := nl ++ bt ++ bt ++ bt ++ nl.

(** The one review that a run submits for the comments [cs]. *)
Definition submission (prDetails : PRDetails) (cs : list Comment) : Review :=
  {| review_owner := owner prDetails;
     review_repo := repo prDetails;
     review_pull_number := pull_number prDetails;
     review_comments := cs;
     review_event := "COMMENT" |}.

(** A line number of a diff: a positive integer. *)
Definition isLineNumber (n : number) : Prop :=
  exists z, (0 < z)%Z /\ n = int z.

(** A chunk as a diff gives it: where a change has an [ln], it is a line
    number. *)
Definition numbered (chunk : Chunk.t) : Prop :=
  Forall (fun c => forall n, Change.ln c = Some n -> isLineNumber n) (Chunk.changes chunk).

(** The service with its call number [k] left out. *)
Definition without (k : nat) (openai : nat -> string -> result ChatCompletion)
  : nat -> string -> result ChatCompletion :=
  fun i prompt => openai (if (i <? k)%nat then i else S i) prompt.

(** The file without one of its chunks. *)
Definition withChunks (file : File.t) (cs : list Chunk.t) : File.t :=
  {| File.to := File.to file; File.chunks := cs |}.

End Spec.

(** ** Sample inputs *)

Module Samples.
Import Text JS Reviewer Spec.

Definition pr0 : PRDetails :=
  {| owner := "octo"; repo := "demo"; pull_number := 7;
     title := "Add parser"; description := "First cut" |}.

Definition context_line (n : Z) (s : string) : Change.t :=
  {| Change.ln := None; Change.ln2 := Some (int n); Change.content := s |}.

Definition changed_line (n : Z) (s : string) : Change.t :=
  {| Change.ln := Some (int n); Change.ln2 := None; Change.content := s |}.

Definition chunk0 : Chunk.t :=
  {| Chunk.content := "@@ -1,2 +1,3 @@";
     Chunk.changes := [context_line 1 " a"; changed_line 2 "+b"; context_line 3 " c"] |}.

Definition chunk1 : Chunk.t :=
  {| Chunk.content := "@@ -10,1 +11,1 @@";
     Chunk.changes := [changed_line 10 "-old"; changed_line 11 "+new"] |}.

Definition chunk2 : Chunk.t :=
  {| Chunk.content := "@@ -20,0 +22,1 @@"; Chunk.changes := [changed_line 22 "+z"] |}.

(** A hunk whose header starts the new side at line 0. *)
Definition chunk_at_zero : Chunk.t :=
  {| Chunk.content := "@@ -0,0 +0,1 @@"; Chunk.changes := [changed_line 0 "+x"] |}.

Definition a_ts : File.t := {| File.to := Some "src/a.ts"; File.chunks := [chunk0] |}.

Definition b_ts : File.t :=
  {| File.to := Some "src/b.ts"; File.chunks := [chunk0; chunk1; chunk2] |}.

Definition removed : File.t := {| File.to := Some "/dev/null"; File.chunks := [chunk0; chunk1] |}.

(** A service that always replies with the same text. *)
Definition always (s : string) : nat -> string -> result ChatCompletion :=
  fun _ _ => reply s.

(** A service whose second call fails. *)
Definition flaky : nat -> string -> result ChatCompletion :=
  fun k _ => if (k =? 1)%nat then Throw (Failure "429 Too Many Requests") else reply reply12.

(** One suggestion that is not wrapped in an array. *)
Definition bare_suggestion : string :=
  "{" ++ quoted "lineNumber" ++ ":" ++ quoted "12" ++ "," ++ quoted "reviewComment" ++ ":"
    ++ quoted "fix this" ++ "}".

(** A suggestion about a range of lines. *)
Definition range_suggestion : string :=
  "[{" ++ quoted "lineNumber" ++ ":" ++ quoted "12-14" ++ "," ++ quoted "reviewComment" ++ ":"
    ++ quoted "split this" ++ "}]".

Definition event0 : Event :=
  {| repository_owner_login := "octo"; repository_name := "demo"; number_ := 7;
     action := "opened"; before := ""; after := "" |}.

(** A hosting API whose pull request has neither title nor body. *)
Definition untitled : Octokit :=
  {| pulls_get := fun _ _ _ => Ok {| data_title := None; data_body := None |};
     pulls_get_diff := fun _ _ _ => Ok None;
     repos_compareCommits := fun _ _ _ _ => Ok "";
     pulls_createReview := fun _ => Ok tt |}.

End Samples.

(** ** Further notions

    What the properties of the rest of the program are stated with. *)

Module Behaviour.
Import Text JS Reviewer Spec Samples.

(** Induction on a value, through the elements of an array. *)
Section ValueInduction.
Variable P : value -> Prop.
Hypothesis HNull : P Null.
Hypothesis HBool : forall b, P (Bool b).
Hypothesis HNum : forall n, P (Num n).
Hypothesis HStr : forall s, P (Str s).
Hypothesis HArr : forall items, Forall P items -> P (Arr items).
Hypothesis HObj : forall ms, P (Obj ms).

Fixpoint value_induction (v : value) : P v :=
  match v with
  | Null => HNull
  | Bool b => HBool b
  | Num n => HNum n
  | Str s => HStr s
  | Arr items =>
      HArr items ((fix each (l : list value) : Forall P l :=
                     match l with
                     | [] => Forall_nil P
                     | x :: r => Forall_cons x (value_induction x) (each r)
                     end) items)
  | Obj ms => HObj ms
  end.
End ValueInduction.

(** The prompts of a list of chunks, each with its file. *)
Definition prompts (prDetails : PRDetails) (l : list (File.t * Chunk.t)) : list string :=
  map (fun fc => createPrompt (fst fc) (snd fc) prDetails) l.

(** The service as it is after [n] calls. *)
Definition later (n : nat) (openai : nat -> string -> result ChatCompletion)
  : nat -> string -> result ChatCompletion :=
  fun i prompt => openai (n + i) prompt.

(** The number that [Number] gives for a [lineNumber] that is a string or a
    number. *)
Definition lineOf (v : value) : option number :=
  match v with
  | Str l => Some (StringToNumber l)
  | Num n => Some n
  | _ => None
  end.

(** An object that suggests the text [t] for the line [n]: its
    [reviewComment] is the string [t], its [lineNumber] a string or a number
    that stands for [n]. *)
Inductive Suggests (s : value) (n : number) (t : string) : Prop :=
| suggests (ms : list (string * value)) (l : value)
           (is_object : s = Obj ms)
           (has_line : lookup "lineNumber" ms = Some l)
           (line_reads : lineOf l = Some n)
           (has_text : lookup "reviewComment" ms = Some (Str t)).

(** What [getAIResponse] returns when the reply has the declared type: a
    value that counts as false, or an array of suggestions. *)
Definition typedAnswer (v : value) : Prop :=
  truthy v = false
  \/ exists items, v = Arr items /\ Forall (fun s => exists n t, Suggests s n t) items.

(** A file that has a path to comment on. *)
Definition hasPath (file : File.t) (p : string) : Prop :=
  File.to file = Some p /\ p <> "".

(** How many times a character occurs in a string. *)
Fixpoint occurrences (c : ascii) (s : string) : nat :=
  match s with
  | EmptyString => 0
  | String x r => (if Ascii.eqb x c then 1 else 0) + occurrences c r
  end.

(** The path that [minimatch] is given for a file. *)
Definition matchedPath (file : File.t) : string :=
  match File.to file with Some p => p | None => "" end.

(** The comments that the call number [k] of the service gives for a
    chunk: those that [createComment] makes of what [getAIResponse] returns,
    none when that counts as false. *)
Definition contribution (openai : nat -> string -> result ChatCompletion)
           (prDetails : PRDetails) (k : nat) (fc : File.t * Chunk.t) : list Comment :=
  let aiResponse := answer (openai k (createPrompt (fst fc) (snd fc) prDetails)) in
  if truthy aiResponse then
    match createComment (fst fc) (snd fc) aiResponse with
    | Ok newComments => newComments
    | Throw _ => []
    end
  else [].

(** The same for a list of chunks, from the call number [k] on. *)
Fixpoint contributions (openai : nat -> string -> result ChatCompletion)
         (prDetails : PRDetails) (k : nat) (l : list (File.t * Chunk.t)) : list Comment :=
  match l with
  | [] => []
  | fc :: r => contribution openai prDetails k fc ++ contributions openai prDetails (S k) r
  end.

(** The diff that [main] fetches for an event: the diff of the pull request
    when it was opened, the comparison of the two commits of the event when
    it was synchronized. *)
Definition fetched (octokit : Octokit) (ev : Event) (prDetails : PRDetails) (diff : string)
  : Prop :=
  (action ev = "opened"
   /\ pulls_get_diff octokit (owner prDetails) (repo prDetails) (pull_number prDetails)
      = Ok (Some diff))
  \/ (action ev = "synchronize"
      /\ repos_compareCommits octokit (owner prDetails) (repo prDetails)
                              (before ev) (after ev) = Ok diff).

(** *** More sample inputs *)

Definition no_path : File.t := {| File.to := None; File.chunks := [chunk0] |}.

Definition x_md : File.t := {| File.to := Some "x.md"; File.chunks := [chunk1] |}.

Definition y_ts : File.t :=
  {| File.to := Some "y.ts";
     File.chunks := [ {| Chunk.content := "@@ -4,0 +5,1 @@";
                         Chunk.changes := [changed_line 5 "+let y = 1"] |} ] |}.

(** A suggestion for line 5, with the line given as a number. *)
Definition line5 : string :=
  "[{" ++ quoted "lineNumber" ++ ": 5, " ++ quoted "reviewComment" ++ ": "
    ++ quoted "use const" ++ "}]".

(** A matcher that knows one pattern: every path that ends in [.md]. *)
Definition md_only (path pattern : string) : bool :=
  String.eqb pattern "**/*.md"
  && String.eqb (substring (String.length path - 3) 3 path) ".md".

(** A parser that finds the two files in any text. *)
Definition two_files (diff : string) : result (list File.t) := Ok [x_md; y_ts].

Definition host (diff : option string) (compared : string) : Octokit :=
  {| pulls_get := fun _ _ _ => Ok {| data_title := Some "Add y"; data_body := None |};
     pulls_get_diff := fun _ _ _ => Ok diff;
     repos_compareCommits := fun _ _ _ _ => Ok compared;
     pulls_createReview := fun _ => Ok tt |}.

Definition event (kind : string) : Event :=
  {| repository_owner_login := "octo"; repository_name := "demo"; number_ := 7;
     action := kind; before := "abc"; after := "def" |}.

(** The suggestion of the round trip, as a value, and twice in an array. *)
Definition suggestion12 : value :=
  Obj [("lineNumber", Str "12"); ("reviewComment", Str "fix this")].

Definition comment12 : Comment :=
  {| body := "[GPT-REVIEW] fix this"; path := "src/a.ts"; line := Finite 12 0 |}.

(** A hosting API that cannot be reached. *)
Definition unreachable : Octokit :=
  {| pulls_get := fun _ _ _ => Throw (Failure "ECONNREFUSED");
     pulls_get_diff := fun _ _ _ => Throw (Failure "ECONNREFUSED");
     repos_compareCommits := fun _ _ _ _ => Throw (Failure "ECONNREFUSED");
     pulls_createReview := fun _ => Throw (Failure "ECONNREFUSED") |}.

Definition pr1 : PRDetails :=
  {| owner := "octo"; repo := "demo"; pull_number := 7; title := "Add y"; description := "" |}.

End Behaviour.

(** ** Properties *)

Module Facts.
Import Text JS Reviewer Spec.

(** *** The run-time model at known values *)

Example number_texts :
  map Number_toString
      [int 1200; finite 15 (-1); finite 1 21; finite (-123) (-8); finite 123 (-10); NaN;
       Finite 120 (-2)]
  = ["1200"; "1.5"; "1e+21"; "-0.00000123"; "1.23e-8"; "NaN"; "1.2"].
Proof. vm_compute. reflexivity. Qed.

Example text_numbers :
  map StringToNumber [" 12 "; "012"; "-3"; "1.5"; "0x1F"; ""; "1e3"; ".5"; "12-14"; "twelve"]
  = [int 12; int 12; int (-3); finite 15 (-1); int 31; int 0; int 1000; finite 5 (-1); NaN; NaN].
Proof. vm_compute. reflexivity. Qed.

Example parsed_texts :
  map JSON_parse
      ["[]"; " [1, [2.50, null], true] "; "{" ++ quoted "a" ++ ":1," ++ quoted "a" ++ ":{}}";
       quoted "a\nb\u0041"; "[1,]"; "{" ++ quoted "a" ++ "}"; "01"; "Looks good to me."; ""]
  = [Some (Arr []);
     Some (Arr [Num (int 1); Arr [Num (finite 25 (-1)); Null]; Bool true]);
     Some (Obj [("a", Num (int 1)); ("a", Obj [])]);
     Some (Str ("a" ++ nl ++ "bA"));
     None; None; None; None; None].
Proof. vm_compute. reflexivity. Qed.

Example converted_values :
  (ToString (Arr [Null; Str "a"; Arr [Num (int 1); Num (int 2)]; Obj []]),
   Number (Some (Arr [Str "12"])), Number (Some (Obj [])), Number None,
   ToString (Obj [("toString", Num (int 1))]))
  = (Ok ",a,1,2,[object Object]", Ok (int 12), Ok NaN, Ok NaN,
     Throw (TypeError "Cannot convert object to primitive value")).
Proof. vm_compute. reflexivity. Qed.

Example trimmed_and_split :
  map trim (split "," "**/*.json, **/*.md") = ["**/*.json"; "**/*.md"]
  /\ split "," "" = [""]
  /\ trim (nl ++ "  [] " ++ nl) = "[]".
Proof. repeat split; vm_compute; reflexivity. Qed.

(** *** The loops *)

Section Loops.
Context {A : Type} (body : A -> M unit).

Lemma for_each_app (l1 l2 : list A) (st : Analysis) :
  for_each body (l1 ++ l2)%list st =
  match for_each body l1 st with
  | (st', Ok _) => for_each body l2 st'
  | (st', Throw e) => (st', Throw e)
  end.
Proof.
  revert st. induction l1 as [|a l1 IH]; intros st; simpl.
  - reflexivity.
  - unfold andThen. destruct (body a st) as [st' [[]|e]]; [apply IH | reflexivity].
Qed.

(** A property of the state that every step keeps holds at the end,
    whether the loop finishes or throws. *)
Lemma for_each_keeps (P : Analysis -> Prop) (l : list A) :
  (forall a st, In a l -> P st -> P (fst (body a st))) ->
  forall st, P st -> P (fst (for_each body l st)).
Proof.
  induction l as [|a l IH]; intros Hstep st Hst; simpl.
  - exact Hst.
  - unfold andThen.
    pose proof (Hstep a st (or_introl eq_refl) Hst) as Ha.
    destruct (body a st) as [st' [[]|e]]; simpl in *.
    + apply IH; [intros b s Hb; apply Hstep; right; exact Hb | exact Ha].
    + exact Ha.
Qed.
End Loops.

Lemma for_each_map {A B : Type} (f : A -> B) (body : B -> M unit) (l : list A) (st : Analysis) :
  for_each body (map f l) st = for_each (fun a => body (f a)) l st.
Proof.
  revert st. induction l as [|a l IH]; intros st; simpl; [reflexivity|].
  unfold andThen. destruct (body (f a) st) as [st' [[]|e]]; [apply IH | reflexivity].
Qed.


Lemma deleted_to (file : File.t) :
  deleted file = true <-> File.to file = Some "/dev/null".
Proof.
  unfold deleted. destruct (File.to file) as [p|].
  - rewrite String.eqb_eq. split; [intros ->; reflexivity | intros [= ->]; reflexivity].
  - split; discriminate.
Qed.

Section Run.
Variable openai : nat -> string -> result ChatCompletion.
Variable prDetails : PRDetails.

Local Abbreviation step := (Spec.step openai prDetails).

Lemma reviewFile_deleted (file : File.t) (st : Analysis) :
  deleted file = true -> reviewFile openai prDetails file st = (st, Ok tt).
Proof.
  intros H. unfold reviewFile. change (strictEq (File.to file) "/dev/null") with (deleted file).
  rewrite H. reflexivity.
Qed.

Lemma reviewFile_live (file : File.t) (st : Analysis) :
  deleted file = false ->
  reviewFile openai prDetails file st =
  for_each (reviewChunk openai file prDetails) (File.chunks file) st.
Proof.
  intros H. unfold reviewFile. change (strictEq (File.to file) "/dev/null") with (deleted file).
  rewrite H. reflexivity.
Qed.

(** The two loops of [analyzeCode] are one loop over [work]. *)
Lemma loops_flat (parsedDiff : list File.t) (st : Analysis) :
  for_each (reviewFile openai prDetails) parsedDiff st =
  for_each step (work parsedDiff) st.
Proof.
  revert st. induction parsedDiff as [|file fs IH]; intros st; [reflexivity|].
  change (work (file :: fs))
    with ((if deleted file then [] else map (pair file) (File.chunks file)) ++ work fs)%list.
  rewrite for_each_app. simpl. unfold andThen at 1.
  destruct (deleted file) eqn:Hd.
  - rewrite reviewFile_deleted by exact Hd. simpl. apply IH.
  - rewrite reviewFile_live by exact Hd. rewrite for_each_map. unfold step. simpl.
    destruct (for_each _ (File.chunks file) st) as [st' [[]|e]]; [apply IH | reflexivity].
Qed.

Lemma step_eq (file : File.t) (chunk : Chunk.t) (st : Analysis) :
  reviewChunk openai file prDetails chunk st =
  let prompt := createPrompt file chunk prDetails in
  let aiResponse := answer (openai (List.length (sent st)) prompt) in
  if truthy aiResponse then
    match createComment file chunk aiResponse with
    | Ok newComments =>
        ({| sent := sent st ++ [prompt]; comments := comments st ++ newComments |}, Ok tt)
    | Throw e => (skipped prompt st, Throw e)
    end
  else (skipped prompt st, Ok tt).
Proof.
  unfold reviewChunk, andThen, getAIResponse, lift, push, ret, answer, skipped. simpl.
  destruct (truthy _); [|reflexivity].
  destruct (createComment _ _ _); reflexivity.
Qed.

Lemma in_work (parsedDiff : list File.t) (file : File.t) (chunk : Chunk.t) :
  In (file, chunk) (work parsedDiff) <->
  In file parsedDiff /\ deleted file = false /\ In chunk (File.chunks file).
Proof.
  unfold work. rewrite in_flat_map. split.
  - intros [f [Hf Hin]]. destruct (deleted f) eqn:Hd; [contradiction|].
    apply in_map_iff in Hin. destruct Hin as [c [[= -> ->] Hc]]. auto.
  - intros [Hf [Hd Hc]]. exists file. split; [exact Hf|].
    rewrite Hd. apply in_map. exact Hc.
Qed.

(** Every comment that [createComment] makes for an array comes from one
    of its elements, for a file with a path. *)
Lemma createComment_from (file : File.t) (chunk : Chunk.t) (items : list value)
      (cs : list Comment) :
  createComment file chunk (Arr items) = Ok cs ->
  Forall (fun c => exists suggestion text,
              In suggestion items /\ File.to file = Some (path c) /\ path c <> ""
              /\ suggestionText suggestion = Ok text
              /\ body c = "[GPT-REVIEW] " ++ text
              /\ suggestionLine suggestion = Ok (line c)) cs.
Proof.
  unfold createComment. revert cs.
  induction items as [|s items IH]; intros cs H; simpl in H.
  - injection H as <-. constructor.
  - unfold bind in H at 1.
    match type of H with context [match ?x with _ => _ end] => destruct x as [one|] eqn:Hone end;
      [|discriminate].
    unfold bind in H at 1.
    match type of H with context [match ?x with _ => _ end] => destruct x as [more|] eqn:Hmore end;
      [|discriminate].
    injection H as <-.
    apply Forall_app. split.
    + destruct (File.to file) as [p|] eqn:Hp; [|injection Hone as <-; constructor].
      destruct (String.eqb_spec p "") as [->|Hne]; [injection Hone as <-; constructor|].
      unfold bind in Hone.
      destruct (get s "reviewComment") as [rc|] eqn:Hrc; [|discriminate].
      destruct (ToString_opt rc) as [text|] eqn:Htext; [|discriminate].
      destruct (get s "lineNumber") as [ln|] eqn:Hln; [|discriminate].
      destruct (Number ln) as [n|] eqn:Hn; [|discriminate].
      injection Hone as <-. constructor; [|constructor].
      exists s, text. simpl. unfold suggestionText, suggestionLine, bind.
      rewrite Hrc, Htext, Hln, Hn. repeat split; auto.
    + eapply Forall_impl; [|apply IH; exact Hmore].
      intros c [s' [text H']]. exists s', text. simpl. intuition.
Qed.

Lemma step_origin (parsedDiff : list File.t) (fc : File.t * Chunk.t) (st : Analysis) :
  In fc (work parsedDiff) ->
  Forall (Origin openai prDetails parsedDiff) (comments st) ->
  Forall (Origin openai prDetails parsedDiff) (comments (fst (step fc st))).
Proof.
  destruct fc as [file chunk]. intros Hin Hst.
  apply in_work in Hin. destruct Hin as [Hf [Hd Hc]].
  unfold step. simpl fst at 2. simpl snd. rewrite step_eq. cbv zeta.
  destruct (truthy _); [|exact Hst].
  destruct (createComment _ _ _) as [cs|e] eqn:Hcs; [|exact Hst].
  simpl. apply Forall_app. split; [exact Hst|].
  destruct (answer _) as [| | | |items|] eqn:Hans; try discriminate.
  apply createComment_from in Hcs.
  eapply Forall_impl; [|exact Hcs].
  intros c [s [text [Hs [Hp [Hne [Ht [Hb Hl]]]]]]].
  econstructor; eauto.
Qed.

(** The comments accumulated by a run, finished or not, all have an
    origin. *)
Lemma analyzeCode_origin (parsedDiff : list File.t) :
  Forall (Origin openai prDetails parsedDiff)
         (comments (fst (analyzeCode openai parsedDiff prDetails))).
Proof.
  unfold analyzeCode.
  assert (H : Forall (Origin openai prDetails parsedDiff)
                (comments (fst (for_each (reviewFile openai prDetails) parsedDiff start)))).
  { rewrite loops_flat.
    apply (for_each_keeps step (fun st => Forall (Origin openai prDetails parsedDiff) (comments st))).
    - intros a st Ha Hst. apply step_origin; assumption.
    - constructor. }
  destruct (for_each _ parsedDiff start) as [st [[]|e]]; exact H.
Qed.

(** C2, amended.  Every comment that a run accumulates has a path that
    is not empty, is not the deleted-file sentinel and is the target path
    of a file of the diff, and it comes from a suggestion of a reply to a
    chunk of that file; its line is [Number] of that suggestion's
    [lineNumber], whatever number that is. *)
Theorem comment_path_and_line (parsedDiff : list File.t) :
  Forall (fun c =>
            path c <> "" /\ path c <> "/dev/null"
            /\ exists file chunk call items suggestion,
                In file parsedDiff /\ In chunk (File.chunks file)
                /\ File.to file = Some (path c)
                /\ answer (openai call (createPrompt file chunk prDetails)) = Arr items
                /\ In suggestion items
                /\ suggestionLine suggestion = Ok (line c))
         (comments (fst (analyzeCode openai parsedDiff prDetails))).
Proof.
  eapply Forall_impl; [|apply analyzeCode_origin].
  intros c [file chunk call items s text Hf Hc Hd Hans Hs Hp Hne Ht Hb Hl].
  split; [exact Hne|]. split.
  - intros Heq. unfold deleted in Hd. rewrite Hp, Heq in Hd. discriminate.
  - exists file, chunk, call, items, s. auto 10.
Qed.


(** C5.  When every file of the diff is a deleted file, the run sends no
    prompt and returns no comment. *)
Theorem deleted_files_skipped (parsedDiff : list File.t)
        (Hdeleted : Forall (fun file => File.to file = Some "/dev/null") parsedDiff) :
  analyzeCode openai parsedDiff prDetails = (start, Ok []).
Proof.
  unfold analyzeCode. rewrite loops_flat.
  assert (Hwork : work parsedDiff = []).
  { induction Hdeleted as [|file fs Hfile _ IH]; [reflexivity|].
    unfold work in *. simpl. rewrite IH.
    apply deleted_to in Hfile. rewrite Hfile. reflexivity. }
  rewrite Hwork. reflexivity.
Qed.

(** In any diff, the deleted files might as well not be there. *)
Lemma deleted_files_invisible (parsedDiff : list File.t) :
  analyzeCode openai parsedDiff prDetails
  = analyzeCode openai (filter (fun file => negb (deleted file)) parsedDiff) prDetails.
Proof.
  unfold analyzeCode. rewrite !loops_flat.
  assert (Hwork : work (filter (fun file => negb (deleted file)) parsedDiff) = work parsedDiff).
  { induction parsedDiff as [|file fs IH]; [reflexivity|].
    unfold work in *. simpl. destruct (deleted file) eqn:Hd; simpl; [exact IH|].
    rewrite Hd, IH. reflexivity. }
  rewrite Hwork. reflexivity.
Qed.

(** [getAIResponse] returns for every reply: nothing that the call or the
    parsing throws gets past it. *)
Lemma getAIResponse_returns (prompt : string) (st : Analysis) :
  getAIResponse openai prompt st
  = (skipped prompt st, Ok (answer (openai (List.length (sent st)) prompt))).
Proof. reflexivity. Qed.

Lemma unusable_answer (r : result ChatCompletion) :
  unusable r = true -> answer r = Null \/ answer r = Arr [].
Proof.
  unfold answer, parseReply, unusable, replyContent.
  destruct r as [[cs]|e]; simpl; [|auto].
  destruct cs as [|[[[[s|]]|]] rest]; simpl; auto.
  destruct (String.eqb (trim s) ""); simpl; [auto|].
  destruct (JSON_parse (trim s)); [discriminate | auto].
Qed.

(** X22.  When the service call fails, or the reply has no
    choice or no text, or its text is blank or is not JSON,
    [getAIResponse] returns [null] or an empty array, the chunk sends its
    prompt and adds no comment, nothing is thrown, and the loop goes on
    with the next chunk. *)
Theorem unusable_reply_recovered (file : File.t) (chunk : Chunk.t) (st : Analysis)
        (Hunusable : unusable (openai (List.length (sent st))
                                      (createPrompt file chunk prDetails)) = true) :
  let prompt := createPrompt file chunk prDetails in
  (answer (openai (List.length (sent st)) prompt) = Null
   \/ answer (openai (List.length (sent st)) prompt) = Arr [])
  /\ reviewChunk openai file prDetails chunk st = (skipped prompt st, Ok tt)
  /\ forall rest,
      for_each (reviewChunk openai file prDetails) (chunk :: rest) st =
      for_each (reviewChunk openai file prDetails) rest (skipped prompt st).
Proof.
  intros prompt. pose proof (unusable_answer _ Hunusable) as Hans. fold prompt in Hans.
  assert (Hstep : reviewChunk openai file prDetails chunk st = (skipped prompt st, Ok tt)).
  { rewrite step_eq. cbv zeta. fold prompt.
    destruct Hans as [-> | ->]; simpl; [reflexivity|].
    unfold skipped. rewrite app_nil_r. reflexivity. }
  split; [exact Hans|]. split; [exact Hstep|].
  intros rest. simpl. unfold andThen. rewrite Hstep. reflexivity.
Qed.

Lemma answer_reply12 (r : result ChatCompletion) :
  replyContent r = Some reply12 ->
  answer r = Arr [Obj [("lineNumber", Str "12"); ("reviewComment", Str "fix this")]].
Proof.
  unfold replyContent, answer, parseReply.
  destruct r as [[cs]|e]; [|discriminate].
  destruct cs as [|[[[[s|]]|]] rest]; try discriminate.
  intros [= ->]. vm_compute. reflexivity.
Qed.

(** C3.  When the reply to the prompt of a chunk of a file with target
    path ["src/a.ts"] is the text
    [[{"lineNumber":"12","reviewComment":"fix this"}]], the chunk adds
    exactly one comment, with body ["[GPT-REVIEW] fix this"], path
    ["src/a.ts"] and line 12. *)
Theorem round_trip (file : File.t) (chunk : Chunk.t) (st : Analysis)
        (Hpath : File.to file = Some "src/a.ts")
        (Hreply : replyContent (openai (List.length (sent st))
                                       (createPrompt file chunk prDetails))
                  = Some reply12) :
  reviewChunk openai file prDetails chunk st =
  ({| sent := sent st ++ [createPrompt file chunk prDetails];
      comments := comments st
                  ++ [ {| body := "[GPT-REVIEW] fix this"; path := "src/a.ts";
                          line := int 12 |} ] |},
   Ok tt).
Proof.
  rewrite step_eq. cbv zeta. rewrite (answer_reply12 _ Hreply).
  unfold createComment. rewrite Hpath. reflexivity.
Qed.

End Run.

(** *** One chunk less *)

Section Isolation.
Variable prDetails : PRDetails.

(** Every step sends exactly one prompt. *)
Lemma step_sends openai (fc : File.t * Chunk.t) (st : Analysis) :
  List.length (sent (fst (step openai prDetails fc st))) = S (List.length (sent st)).
Proof.
  unfold step. rewrite step_eq. cbv zeta.
  destruct (truthy _); [destruct (createComment _ _ _)|];
    simpl; rewrite length_app; simpl; lia.
Qed.

Lemma sent_grows openai (l : list (File.t * Chunk.t)) (st : Analysis) :
  List.length (sent st)
  <= List.length (sent (fst (for_each (step openai prDetails) l st))).
Proof.
  apply (for_each_keeps (step openai prDetails)
           (fun st' => List.length (sent st) <= List.length (sent st'))); [|lia].
  intros a st' _ H. rewrite step_sends. lia.
Qed.

(** A step depends on the service through one call only. *)
Lemma step_same_reply o1 o2 (fc : File.t * Chunk.t) (st1 st2 : Analysis) :
  o1 (List.length (sent st1)) (createPrompt (fst fc) (snd fc) prDetails)
  = o2 (List.length (sent st2)) (createPrompt (fst fc) (snd fc) prDetails) ->
  comments st1 = comments st2 ->
  comments (fst (step o1 prDetails fc st1)) = comments (fst (step o2 prDetails fc st2))
  /\ snd (step o1 prDetails fc st1) = snd (step o2 prDetails fc st2).
Proof.
  intros Hreply Hcomments. unfold step. rewrite !step_eq. cbv zeta.
  rewrite Hreply.
  destruct (truthy _); [destruct (createComment _ _ _)|]; simpl; rewrite ?Hcomments; auto.
Qed.

(** Two services that agree on the calls below [n] give the same run, as
    long as the run makes no more than [n] calls. *)
Lemma agree_below o1 o2 (n : nat) :
  (forall i prompt, i < n -> o1 i prompt = o2 i prompt) ->
  forall l st,
    List.length (sent (fst (for_each (step o1 prDetails) l st))) <= n ->
    for_each (step o2 prDetails) l st = for_each (step o1 prDetails) l st.
Proof.
  intros Hagree. induction l as [|fc l IH]; intros st Hn; [reflexivity|].
  simpl in *. unfold andThen in *.
  assert (Hlt : List.length (sent st) < n).
  { pose proof (step_sends o1 fc st) as Hs.
    destruct (step o1 prDetails fc st) as [st' [[]|e]]; simpl in *.
    - pose proof (sent_grows o1 l st'). lia.
    - lia. }
  assert (Hsame : step o2 prDetails fc st = step o1 prDetails fc st).
  { unfold step. rewrite !step_eq. cbv zeta. rewrite (Hagree _ _ Hlt). reflexivity. }
  rewrite Hsame.
  destruct (step o1 prDetails fc st) as [st' [[]|e]]; [apply IH; exact Hn | reflexivity].
Qed.

(** After the call that is left out, the two runs stay one call apart
    and accumulate the same comments. *)
Lemma one_call_apart openai (k : nat) (l : list (File.t * Chunk.t)) :
  forall st st',
    comments st = comments st' ->
    List.length (sent st) = S (List.length (sent st')) ->
    k <= List.length (sent st') ->
    comments (fst (for_each (step openai prDetails) l st))
    = comments (fst (for_each (step (without k openai) prDetails) l st'))
    /\ snd (for_each (step openai prDetails) l st)
       = snd (for_each (step (without k openai) prDetails) l st').
Proof.
  induction l as [|fc l IH]; intros st st' Hc Hlen Hk; [simpl; auto|].
  simpl. unfold andThen.
  assert (Hreply : openai (List.length (sent st)) (createPrompt (fst fc) (snd fc) prDetails)
                   = without k openai (List.length (sent st'))
                             (createPrompt (fst fc) (snd fc) prDetails)).
  { unfold without. destruct (Nat.ltb_spec (List.length (sent st')) k); [lia|].
    rewrite Hlen. reflexivity. }
  destruct (step_same_reply _ _ fc st st' Hreply Hc) as [Hc' Hr'].
  pose proof (step_sends openai fc st) as Hs.
  pose proof (step_sends (without k openai) fc st') as Hs'.
  destruct (step openai prDetails fc st) as [s1 r1].
  destruct (step (without k openai) prDetails fc st') as [s2 r2].
  simpl in *. subst r2.
  destruct r1 as [[]|e]; [|auto].
  apply IH; [exact Hc' | lia | lia].
Qed.

Lemma for_each_ext {A : Type} (f g : A -> M unit) (l : list A) (st : Analysis) :
  (forall a s, f a s = g a s) -> for_each f l st = for_each g l st.
Proof.
  intros H. revert st. induction l as [|a l IH]; intros st; [reflexivity|].
  simpl. unfold andThen. rewrite H. destruct (g a st) as [st' [[]|e]]; [apply IH | reflexivity].
Qed.

(** The chunks of one file, as a loop over [work]. *)
Lemma chunks_flat openai (file other : File.t) (cs : list Chunk.t) (st : Analysis) :
  File.to other = File.to file ->
  for_each (step openai prDetails) (map (pair other) cs) st
  = for_each (reviewChunk openai file prDetails) cs st.
Proof.
  intros Hto. rewrite for_each_map. apply for_each_ext. intros c s.
  unfold step. simpl. rewrite !step_eq.
  unfold createPrompt, createComment. rewrite Hto. reflexivity.
Qed.

Lemma work_cons (file : File.t) (fs : list File.t) :
  deleted file = false ->
  work (file :: fs) = (map (pair file) (File.chunks file) ++ work fs)%list.
Proof. intros H. unfold work. simpl. rewrite H. reflexivity. Qed.

Lemma work_app (fs1 fs2 : list File.t) : work (fs1 ++ fs2) = (work fs1 ++ work fs2)%list.
Proof. unfold work. apply flat_map_app. Qed.

(** C6.  Take a run that reaches a chunk, after the files [before] and
    the chunks [cs1] of its file, and gets [null] from [getAIResponse]
    for it.  The chunk sends its prompt and adds no comment, and the run
    accumulates the same comments and ends the same way as the run on the
    diff without that chunk, against the service without that call. *)
Theorem null_result_isolated openai (before after : list File.t) (file : File.t)
        (cs1 cs2 : list Chunk.t) (chunk : Chunk.t) (st0 st : Analysis)
        (Hchunks : File.chunks file = (cs1 ++ chunk :: cs2)%list)
        (Hlive : File.to file <> Some "/dev/null")
        (Hbefore : for_each (reviewFile openai prDetails) before start = (st0, Ok tt))
        (Hcs1 : for_each (reviewChunk openai file prDetails) cs1 st0 = (st, Ok tt))
        (Hnull : answer (openai (List.length (sent st)) (createPrompt file chunk prDetails))
                 = Null) :
  reviewChunk openai file prDetails chunk st
  = (skipped (createPrompt file chunk prDetails) st, Ok tt)
  /\ let k := List.length (sent st) in
     let whole := analyzeCode openai (before ++ file :: after) prDetails in
     let less := analyzeCode (without k openai)
                             (before ++ withChunks file (cs1 ++ cs2) :: after) prDetails in
     comments (fst whole) = comments (fst less) /\ snd whole = snd less.
Proof.
  assert (Hd : deleted file = false).
  { destruct (deleted file) eqn:Hd; [|reflexivity].
    apply deleted_to in Hd. contradiction. }
  assert (Hstep : reviewChunk openai file prDetails chunk st
                  = (skipped (createPrompt file chunk prDetails) st, Ok tt)).
  { rewrite step_eq. cbv zeta. rewrite Hnull. reflexivity. }
  split; [exact Hstep|]. cbv zeta.
  set (k := List.length (sent st)).
  set (o' := without k openai).
  set (rest := (map (pair file) cs2 ++ work after)%list).
  (* the run on the whole diff *)
  assert (Hwhole : for_each (reviewFile openai prDetails) (before ++ file :: after) start
                   = for_each (step openai prDetails) rest
                              (skipped (createPrompt file chunk prDetails) st)).
  { rewrite loops_flat, work_app, work_cons by exact Hd.
    rewrite Hchunks, map_app. simpl map.
    rewrite for_each_app, <- loops_flat, Hbefore.
    rewrite <- app_assoc, for_each_app, (chunks_flat openai file file) by reflexivity.
    rewrite Hcs1. simpl. unfold andThen. fold rest.
    change (step openai prDetails (file, chunk) st)
      with (reviewChunk openai file prDetails chunk st).
    rewrite Hstep. reflexivity. }
  (* the run on the diff without the chunk *)
  assert (Hprefix : for_each (step o' prDetails) (work before ++ map (pair file) cs1) start
                    = (st, Ok tt)).
  { assert (Hrun : for_each (step openai prDetails) (work before ++ map (pair file) cs1) start
                   = (st, Ok tt)).
    { rewrite for_each_app, <- loops_flat, Hbefore.
      rewrite (chunks_flat openai file file) by reflexivity. exact Hcs1. }
    rewrite <- Hrun. apply (agree_below openai o' k).
    - intros i prompt Hi. unfold o', without.
      destruct (Nat.ltb_spec i k); [reflexivity | lia].
    - rewrite Hrun. simpl. unfold k. lia. }
  assert (Hless : for_each (reviewFile o' prDetails)
                           (before ++ withChunks file (cs1 ++ cs2) :: after) start
                  = for_each (step o' prDetails) rest st).
  { rewrite loops_flat, work_app, work_cons by exact Hd.
    simpl File.chunks. rewrite map_app.
    rewrite <- !app_assoc, app_assoc, for_each_app.
    assert (Hsame : for_each (step o' prDetails)
                      (work before ++ map (pair (withChunks file (cs1 ++ cs2))) cs1) start
                    = (st, Ok tt)).
    { rewrite <- Hprefix, !for_each_app.
      destruct (for_each (step o' prDetails) (work before) start) as [s [[]|e]];
        [|reflexivity].
      rewrite (chunks_flat o' file (withChunks file (cs1 ++ cs2))) by reflexivity.
      rewrite (chunks_flat o' file file) by reflexivity. reflexivity. }
    rewrite Hsame, for_each_app. unfold rest. rewrite for_each_app.
    rewrite (chunks_flat o' file (withChunks file (cs1 ++ cs2))) by reflexivity.
    rewrite (chunks_flat o' file file) by reflexivity. reflexivity. }
  unfold analyzeCode. rewrite Hwhole, Hless.
  destruct (one_call_apart openai k rest
              (skipped (createPrompt file chunk prDetails) st) st) as [Hc Hr].
  - reflexivity.
  - simpl. rewrite length_app. simpl. lia.
  - unfold k. lia.
  - fold o' in Hc, Hr.
    destruct (for_each (step openai prDetails) rest _) as [s1 [[]|e1]];
      destruct (for_each (step o' prDetails) rest st) as [s2 [[]|e2]];
      simpl in *; try discriminate; split; congruence.
Qed.

End Isolation.

(** *** The prompt *)

Lemma append_assoc (a b c : string) : (a ++ b) ++ c = a ++ b ++ c.
Proof. induction a as [|x a IH]; simpl; [reflexivity | rewrite IH; reflexivity]. Qed.

Lemma renderChange_shown (c : Change.t) : renderChange c = shownRender c.
Proof. reflexivity. Qed.

(** The prompt is its fixed text around, in this order, the file path,
    the title and the description of the pull request, each as it is, then
    the raw content of the chunk and, on the lines after it, one line per
    change, made of the number that the program picks, a space and the
    content of the change.  (A file without a path shows as the text
    [undefined].) *)
Lemma prompt_shown (file : File.t) (chunk : Chunk.t) (prDetails : PRDetails) :
  createPrompt file chunk prDetails =
  beforePath ++ undefined_or (File.to file) ++ afterPath ++ title prDetails ++ afterTitle
    ++ description prDetails ++ afterDescription
    ++ Chunk.content chunk ++ nl ++ join nl (map shownRender (Chunk.changes chunk))
    ++ closing.
Proof.
  unfold createPrompt.
  rewrite (map_ext _ _ renderChange_shown).
  generalize (join nl (map shownRender (Chunk.changes chunk))) as lines.
  generalize (Chunk.content chunk) as raw.
  generalize (title prDetails) as t. generalize (description prDetails) as d.
  generalize (undefined_or (File.to file)) as p.
  intros p d t raw lines.
  unfold beforePath, afterPath, afterTitle, afterDescription, closing, quoted.
  cbn [instructions app join].
  repeat rewrite append_assoc. reflexivity.
Qed.

Lemma strip_zeros_nonzero (k : nat) :
  forall m e, m <> 0%Z -> fst (strip_zeros k m e) <> 0%Z.
Proof.
  induction k as [|k IH]; intros m e Hm; simpl; [exact Hm|].
  destruct (m mod 10 =? 0)%Z eqn:Hmod; [|exact Hm].
  apply IH. apply Z.eqb_eq in Hmod.
  pose proof (Z.div_mod m 10 ltac:(lia)). lia.
Qed.

(** A line number counts as true. *)
Lemma line_number_truthy (n : number) : isLineNumber n -> number_truthy n = true.
Proof.
  intros [z [Hz ->]]. unfold int, finite.
  destruct (Z.eqb_spec z 0) as [->|Hne]; [lia|].
  pose proof (strip_zeros_nonzero (Z.to_nat (Z.log2 (Z.abs z))) z 0 Hne) as H.
  destruct (strip_zeros _ z 0) as [m e]. simpl in *.
  apply negb_true_iff, Z.eqb_neq. exact H.
Qed.

Lemma renderChange_spec (c : Change.t) :
  (forall n, Change.ln c = Some n -> isLineNumber n) -> renderChange c = specRender c.
Proof.
  intros H. unfold renderChange, specRender, specLineNumber.
  destruct (Change.ln c) as [n|]; [|reflexivity].
  rewrite (line_number_truthy n (H n eq_refl)). reflexivity.
Qed.

(** C7.  For every file, chunk and pull request context, the chunk being
    one whose change lines carry line numbers as a diff gives them, the
    prompt is its fixed text around, in this order, the file path, the title
    and the description of the pull request, each as it is, then the raw
    content of the chunk followed, on the lines after it, by one line per
    change: the line number, a space and the content of the change, where the
    line number is the [ln] field when present and the [ln2] field
    otherwise. *)
Theorem prompt_embeds (file : File.t) (chunk : Chunk.t) (prDetails : PRDetails)
        (Hnumbered : numbered chunk) :
  createPrompt file chunk prDetails =
  beforePath ++ undefined_or (File.to file) ++ afterPath ++ title prDetails ++ afterTitle
    ++ description prDetails ++ afterDescription
    ++ Chunk.content chunk ++ nl ++ join nl (map specRender (Chunk.changes chunk))
    ++ closing.
Proof.
  rewrite prompt_shown.
  assert (Hlines : map shownRender (Chunk.changes chunk)
                   = map specRender (Chunk.changes chunk)).
  { unfold numbered in Hnumbered.
    induction Hnumbered as [|c cs Hc _ IH]; [reflexivity|].
    simpl. rewrite IH, <- renderChange_shown, (renderChange_spec c Hc). reflexivity. }
  rewrite Hlines. reflexivity.
Qed.

(** *** The whole run *)

Section Main.
Variable openai : nat -> string -> result ChatCompletion.
Variable minimatch : string -> string -> bool.
Variable parseDiff : string -> result (list File.t).
Variable octokit : Octokit.
Variable readEvent : result Event.
Variable exclude : string.

(** C9.  When the event is read and the hosting API answers, the title
    and the description of the pull request context are the title and the
    body of the answer, and the empty string where the answer has
    [null]. *)
Theorem null_title_and_body (ev : Event) (data : PullData)
        (Hevent : readEvent = Ok ev)
        (Hget : pulls_get octokit (repository_owner_login ev) (repository_name ev) (number_ ev)
                = Ok data) :
  exists prDetails,
    getPRDetails octokit readEvent = Ok prDetails
    /\ title prDetails = match data_title data with Some t => t | None => "" end
    /\ description prDetails = match data_body data with Some b => b | None => "" end
    /\ (data_title data = None -> title prDetails = "")
    /\ (data_body data = None -> description prDetails = "").
Proof.
  unfold getPRDetails. rewrite Hevent. simpl. rewrite Hget. simpl.
  eexists. split; [reflexivity|]. simpl.
  repeat split; intros ->; reflexivity.
Qed.

(** A run ends before the analysis, or it is [review] on a parsed
    diff. *)
Lemma main_cases :
  (exists r, main openai minimatch parseDiff octokit readEvent exclude = stop r)
  \/ (exists prDetails diff parsedDiff,
        getPRDetails octokit readEvent = Ok prDetails
        /\ parseDiff diff = Ok parsedDiff
        /\ main openai minimatch parseDiff octokit readEvent exclude
           = review openai minimatch octokit exclude prDetails parsedDiff).
Proof.
  unfold main.
  destruct (getPRDetails octokit readEvent) as [prDetails|e]; [|left; eauto].
  destruct readEvent as [ev|e]; [|left; eauto].
  destruct (String.eqb (action ev) "opened").
  - destruct (getDiff _ _ _ _) as [[diff|]|e]; simpl; try (left; eauto; fail).
    destruct (String.eqb diff ""); [left; eauto|].
    destruct (parseDiff diff) eqn:Hparse; [right; eauto 6 | left; eauto].
  - destruct (String.eqb (action ev) "synchronize"); [|left; eauto].
    destruct (repos_compareCommits _ _ _ _ _) as [diff|e]; simpl; [|left; eauto].
    destruct (String.eqb diff ""); [left; eauto|].
    destruct (parseDiff diff) eqn:Hparse; [right; eauto 6 | left; eauto].
Qed.

Lemma analyzeCode_returns (parsedDiff : list File.t) (prDetails : PRDetails)
      (st : Analysis) (cs : list Comment) :
  analyzeCode openai parsedDiff prDetails = (st, Ok cs) -> cs = comments st.
Proof.
  unfold analyzeCode.
  destruct (for_each _ parsedDiff start) as [st' [[]|e]]; congruence.
Qed.

Lemma review_allowed (prDetails : PRDetails) (parsedDiff : list File.t) :
  Forall (fun c => existsb (fun pattern => minimatch (path c) pattern)
                           (excludePatterns exclude) = false)
         (comments (fst (analyzeCode openai (filter (shouldInclude minimatch exclude) parsedDiff)
                                     prDetails))).
Proof.
  eapply Forall_impl; [|apply analyzeCode_origin].
  intros c [file chunk call items s text Hf Hc Hd Hans Hs Hp Hne Ht Hb Hl].
  apply filter_In in Hf. destruct Hf as [_ Hinc].
  unfold shouldInclude in Hinc. rewrite Hp in Hinc.
  apply negb_true_iff in Hinc. exact Hinc.
Qed.

(** C4.  No comment that a run accumulates, and no comment of a review
    that it submits, has a path that matches one of the exclude
    patterns. *)
Theorem excluded_paths_not_commented :
  let run := main openai minimatch parseDiff octokit readEvent exclude in
  Forall (fun c => existsb (fun pattern => minimatch (path c) pattern)
                           (excludePatterns exclude) = false)
         (comments (analysis run))
  /\ Forall (fun r =>
               Forall (fun c => existsb (fun pattern => minimatch (path c) pattern)
                                        (excludePatterns exclude) = false)
                      (review_comments r))
            (reviews run).
Proof.
  cbv zeta.
  destruct main_cases as [[r ->] | [prDetails [diff [parsedDiff [_ [_ ->]]]]]].
  - split; constructor.
  - pose proof (review_allowed prDetails parsedDiff) as Hall. unfold review.
    destruct (analyzeCode _ _ _) as [st [cs|e]] eqn:Hrun; simpl in *.
    + apply analyzeCode_returns in Hrun. subst cs.
      destruct (0 <? List.length (comments st))%nat; simpl; split; auto.
    + split; auto.
Qed.

(** A run that ends before the analysis submits no review.  A run
    that reaches it submits nothing and ends normally when the analysis
    returns no comment; it submits exactly one review, with all the
    comments and the event ["COMMENT"], when the analysis returns some,
    and ends as that call ends; it submits nothing when the analysis
    throws. *)
Theorem one_review_or_none :
  let run := main openai minimatch parseDiff octokit readEvent exclude in
  (exists r, run = stop r /\ reviews run = [])
  \/ (exists prDetails diff parsedDiff,
        getPRDetails octokit readEvent = Ok prDetails
        /\ parseDiff diff = Ok parsedDiff
        /\ analysis run
           = fst (analyzeCode openai (filter (shouldInclude minimatch exclude) parsedDiff)
                              prDetails)
        /\ match snd (analyzeCode openai (filter (shouldInclude minimatch exclude) parsedDiff)
                                  prDetails) with
           | Ok [] => reviews run = [] /\ exit run = Ok tt
           | Ok cs => reviews run = [submission prDetails cs]
                      /\ exit run = pulls_createReview octokit (submission prDetails cs)
           | Throw e => reviews run = [] /\ exit run = Throw e
           end).
Proof.
  cbv zeta.
  destruct main_cases as [[r ->] | [prDetails [diff [parsedDiff [Hpr [Hparse ->]]]]]].
  - left. exists r. split; reflexivity.
  - right. exists prDetails, diff, parsedDiff.
    split; [exact Hpr|]. split; [exact Hparse|].
    unfold review.
    destruct (analyzeCode _ _ _) as [st [[|c cs]|e]]; simpl; repeat split; reflexivity.
Qed.

End Main.

(** *** The properties at the sample inputs *)

Import Samples.

(** C1, where the program fails it.  A reply that does not have the
    expected shape should be recovered as no suggestion for its chunk, with
    nothing thrown and the run going on.  For a reply that is one suggestion
    object, not in an array, [getAIResponse] returns the object although it
    is declared to return an array or [null]; [createComment] throws on it,
    the exception leaves [analyzeCode], and the chunks and files that follow
    are not visited. *)
Lemma wrong_shape_not_recovered :
  (exists v, JSON_parse (trim bare_suggestion) = Some v /\ expectedShape v = false)
  /\ reviewChunk (always bare_suggestion) a_ts pr0 chunk0 start
     = (skipped (createPrompt a_ts chunk0 pr0) start,
        Throw (TypeError "aiResponses.flatMap is not a function"))
  /\ analyzeCode (always bare_suggestion) [a_ts; b_ts] pr0
     = (skipped (createPrompt a_ts chunk0 pr0) start,
        Throw (TypeError "aiResponses.flatMap is not a function")).
Proof.
  split; [eexists; split; vm_compute; reflexivity|].
  split; vm_compute; reflexivity.
Qed.

(** An array of anything is taken for an array of suggestions. *)
Example array_of_numbers_commented :
  snd (analyzeCode (always "[12]") [a_ts] pr0)
  = Ok [ {| body := "[GPT-REVIEW] undefined"; path := "src/a.ts"; line := NaN |} ].
Proof. vm_compute. reflexivity. Qed.

(** A reply in prose is recovered. *)
Lemma unusable_reply_recovered_witness :
  reviewChunk (always "Looks good to me.") a_ts pr0 chunk0 start
  = (skipped (createPrompt a_ts chunk0 pr0) start, Ok tt).
Proof.
  refine (proj1 (proj2 (unusable_reply_recovered (always "Looks good to me.") pr0
                          a_ts chunk0 start _))).
  vm_compute. reflexivity.
Defined.

(** C2, as stated, fails: the line of a comment need not be a non-negative
    integer.  A suggestion for the lines ["12-14"] gives a comment whose
    line is NaN. *)
Lemma line_not_an_integer :
  analyzeCode (always range_suggestion) [a_ts] pr0
  = ({| sent := [createPrompt a_ts chunk0 pr0];
        comments := [ {| body := "[GPT-REVIEW] split this"; path := "src/a.ts";
                         line := NaN |} ] |},
     Ok [ {| body := "[GPT-REVIEW] split this"; path := "src/a.ts"; line := NaN |} ])
  /\ StringToNumber "12-14" = NaN
  /\ nonNegativeInteger NaN = false.
Proof. repeat split; vm_compute; reflexivity. Qed.

(** The round trip, as a whole run over one file with one chunk. *)
Lemma round_trip_witness :
  analyzeCode (always reply12) [a_ts] pr0
  = ({| sent := [createPrompt a_ts chunk0 pr0];
        comments := [ {| body := "[GPT-REVIEW] fix this"; path := "src/a.ts";
                         line := Finite 12 0 |} ] |},
     Ok [ {| body := "[GPT-REVIEW] fix this"; path := "src/a.ts"; line := Finite 12 0 |} ]).
Proof.
  unfold analyzeCode. rewrite loops_flat.
  change (work [a_ts]) with [(a_ts, chunk0)].
  cbn [for_each]. unfold andThen, step. cbn [fst snd].
  rewrite (round_trip (always reply12) pr0 a_ts chunk0 start eq_refl eq_refl).
  reflexivity.
Defined.

(** Two deleted files. *)
Lemma deleted_files_skipped_witness :
  analyzeCode (always reply12) [removed; removed] pr0 = (start, Ok []).
Proof.
  apply (deleted_files_skipped (always reply12) pr0 [removed; removed]).
  repeat constructor.
Defined.

(** The second of three chunks meets a failing call: the two others
    still give their comments, and so does the next file. *)
Lemma null_result_isolated_witness :
  comments (fst (analyzeCode flaky [b_ts; a_ts] pr0))
  = comments (fst (analyzeCode (without 1 flaky)
                               [withChunks b_ts [chunk0; chunk2]; a_ts] pr0))
  /\ List.length (comments (fst (analyzeCode flaky [b_ts; a_ts] pr0))) = 3.
Proof.
  split; [|vm_compute; reflexivity].
  refine (proj1 (proj2 (null_result_isolated pr0 flaky [] [a_ts] b_ts [chunk0] [chunk2] chunk1
                          start
                          (fst (for_each (reviewChunk flaky b_ts pr0) [chunk0] start))
                          _ _ _ _ _))).
  - reflexivity.
  - discriminate.
  - reflexivity.
  - vm_compute. reflexivity.
  - vm_compute. reflexivity.
Defined.

(** Outside the chunks that a diff gives: the program tests [ln] for
    truth, not for presence, so for a change whose [ln] is 0 the prompt has
    ["undefined +x"], not ["0 +x"]. *)
Example zero_line_number_not_shown :
  specRender (changed_line 0 "+x") = "0 +x"
  /\ contains (Chunk.content chunk_at_zero ++ nl
                 ++ join nl (map specRender (Chunk.changes chunk_at_zero)) ++ closing)
              (createPrompt a_ts chunk_at_zero pr0) = false
  /\ contains (Chunk.content chunk_at_zero ++ nl ++ "undefined +x" ++ closing)
              (createPrompt a_ts chunk_at_zero pr0) = true.
Proof. repeat split; vm_compute; reflexivity. Qed.

Lemma prompt_embeds_witness :
  createPrompt a_ts chunk0 pr0 =
  beforePath ++ "src/a.ts" ++ afterPath ++ "Add parser" ++ afterTitle ++ "First cut"
    ++ afterDescription ++ "@@ -1,2 +1,3 @@" ++ nl
    ++ join nl ["1  a"; "2 +b"; "3  c"] ++ closing.
Proof.
  apply (prompt_embeds a_ts chunk0 pr0).
  constructor; [|constructor; [|constructor; [|constructor]]]; intros n H;
    try discriminate H.
  injection H as <-. exists 2%Z. split; [lia | reflexivity].
Defined.

Example prompt_of_sample :
  createPrompt a_ts chunk0 pr0 =
  beforePath ++ "src/a.ts" ++ afterPath ++ "Add parser" ++ afterTitle ++ "First cut"
    ++ afterDescription ++ "@@ -1,2 +1,3 @@" ++ nl
    ++ join nl ["1  a"; "2 +b"; "3  c"] ++ closing.
Proof. vm_compute. reflexivity. Qed.

(** A pull request with neither title nor body. *)
Lemma null_title_and_body_witness :
  exists prDetails,
    getPRDetails untitled (Ok event0) = Ok prDetails
    /\ title prDetails = "" /\ description prDetails = "".
Proof.
  destruct (null_title_and_body untitled (Ok event0) event0
              {| data_title := None; data_body := None |} eq_refl eq_refl)
    as [prDetails [Hget [_ [_ [Ht Hd]]]]].
  exists prDetails. split; [exact Hget|]. split; [apply Ht | apply Hd]; reflexivity.
Defined.

End Facts.


(** ** Properties of the rest of the program *)

Module More.
Import Text JS Reviewer Spec Samples Behaviour Facts.

(** *** [createComment] *)

Lemma get_throws (v : value) (name : string) (e : exn) :
  get v name = Throw e -> exists m, e = TypeError m.
Proof. destruct v; simpl; intros [= <-]; eauto. Qed.

Lemma ToString_throws (v : value) : forall e, ToString v = Throw e -> exists m, e = TypeError m.
Proof.
  induction v as [| b | n | s | items IH | ms] using value_induction; intros e H; simpl in H;
    try discriminate.
  - destruct b; discriminate.
  - unfold bind in H.
    match type of H with
    | context [match ?x with _ => _ end] => destruct x as [ss|e'] eqn:Heach
    end; [discriminate|]. injection H as <-.
    clear - IH Heach. revert e' Heach.
    induction IH as [|x r Hx _ IHr]; intros e' Heach; [discriminate|].
    unfold bind in Heach.
    destruct x; simpl in Heach;
      try (destruct (_ r) as [ss|e''] eqn:Hr in Heach; [discriminate|];
           injection Heach as <-; eapply IHr; exact Hr).
    all: match type of Heach with
         | context [match ?y with Ok _ => _ | Throw _ => _ end] =>
             destruct y as [s0|e0] eqn:Hy
         end.
    all: try (injection Heach as <-; eapply Hx; exact Hy).
    all: destruct (_ r) as [ss|e''] eqn:Hr in Heach; [discriminate|];
         injection Heach as <-; eapply IHr; exact Hr.
  - destruct (lookup "toString" ms); [injection H as <-; eauto | discriminate].
Qed.

Lemma ToString_opt_throws (o : option value) (e : exn) :
  ToString_opt o = Throw e -> exists m, e = TypeError m.
Proof. destruct o; simpl; [apply ToString_throws | discriminate]. Qed.

Lemma Number_throws (o : option value) (e : exn) :
  Number o = Throw e -> exists m, e = TypeError m.
Proof.
  destruct o as [v|]; [|discriminate].
  destruct v; try (simpl; discriminate); unfold Number, bind.
  - destruct (ToString (Arr items)) eqn:H; [discriminate|].
    intros [= <-]. eapply ToString_throws. exact H.
  - destruct (ToString (Obj members)) eqn:H; [discriminate|].
    intros [= <-]. eapply ToString_throws. exact H.
Qed.

Section FlatMap.
Context {A B : Type} (f : A -> result (list B)).

Lemma flatMap_throws (l : list A) (e : exn) :
  flatMap f l = Throw e -> exists a, In a l /\ f a = Throw e.
Proof.
  induction l as [|a l IH]; simpl; [discriminate|].
  unfold bind. destruct (f a) as [x|e'] eqn:Ha.
  - destruct (flatMap f l) as [xs|e'']; [discriminate|].
    intros [= <-]. destruct (IH eq_refl) as [b [Hb Hf]]. eauto.
  - intros [= <-]. eauto.
Qed.

Lemma flatMap_returns (l : list A) (ys : list B) :
  flatMap f l = Ok ys -> forall a, In a l -> exists x, f a = Ok x.
Proof.
  revert ys. induction l as [|a l IH]; simpl; intros ys H b Hb; [contradiction|].
  unfold bind in H. destruct (f a) as [x|e] eqn:Ha; [|discriminate].
  destruct (flatMap f l) as [xs|e] eqn:Hl; [|discriminate].
  destruct Hb as [<-|Hb]; [eauto | eapply IH; eauto].
Qed.

Lemma flatMap_app (l1 l2 : list A) :
  flatMap f (l1 ++ l2) =
  (xs <- flatMap f l1 ;; ys <- flatMap f l2 ;; Ok (xs ++ ys)%list).
Proof.
  induction l1 as [|a l1 IH]; simpl.
  - unfold bind. destruct (flatMap f l2); reflexivity.
  - unfold bind in *. destruct (f a) as [x|e]; [|reflexivity].
    rewrite IH. destruct (flatMap f l1) as [xs|e]; [|reflexivity].
    destruct (flatMap f l2) as [ys|e]; [|reflexivity].
    rewrite app_assoc. reflexivity.
Qed.
End FlatMap.

(** Whatever [createComment] throws is a TypeError. *)
Lemma createComment_throws (file : File.t) (chunk : Chunk.t) (v : value) (e : exn) :
  createComment file chunk v = Throw e -> exists m, e = TypeError m.
Proof.
  unfold createComment. destruct v; try (intros [= <-]; eauto; fail).
  intros H. apply flatMap_throws in H. destruct H as [s [_ H]].
  destruct (File.to file) as [p|]; [|discriminate].
  destruct (String.eqb p ""); [discriminate|].
  unfold bind in H.
  destruct (get s "reviewComment") as [rc|e1] eqn:H1;
    [|injection H as <-; eapply get_throws; exact H1].
  destruct (ToString_opt rc) as [t|e2] eqn:H2;
    [|injection H as <-; eapply ToString_opt_throws; exact H2].
  destruct (get s "lineNumber") as [ln|e3] eqn:H3;
    [|injection H as <-; eapply get_throws; exact H3].
  destruct (Number ln) as [n|e4] eqn:H4;
    [discriminate | injection H as <-; eapply Number_throws; exact H4].
Qed.

Lemma suggestion_comment (p : string) (s : value) (n : number) (t : string) :
  Suggests s n t ->
  (reviewComment <- get s "reviewComment" ;;
   text <- ToString_opt reviewComment ;;
   lineNumber <- get s "lineNumber" ;;
   n <- Number lineNumber ;;
   Ok [ {| body := "[GPT-REVIEW] " ++ text; path := p; line := n |} ])
  = Ok [ {| body := "[GPT-REVIEW] " ++ t; path := p; line := n |} ].
Proof.
  intros [ms l -> Hl Hn Ht]. simpl. rewrite Ht, Hl. simpl.
  destruct l; try discriminate; simpl in *; injection Hn as <-; reflexivity.
Qed.

Lemma createComment_typed_items (file : File.t) (chunk : Chunk.t) (p : string)
      (items : list value) :
  hasPath file p ->
  Forall (fun s => exists n t, Suggests s n t) items ->
  exists cs,
    createComment file chunk (Arr items) = Ok cs
    /\ Forall2 (fun s c => exists n t,
                    Suggests s n t
                    /\ c = {| body := "[GPT-REVIEW] " ++ t; path := p; line := n |})
               items cs.
Proof.
  intros [Hp Hne] Hitems. unfold createComment.
  match goal with |- context [flatMap ?g _] => set (f := g) end.
  assert (Hf : forall s n t, Suggests s n t ->
                 f s = Ok [ {| body := "[GPT-REVIEW] " ++ t; path := p; line := n |} ]).
  { intros s n t Hs. unfold f. rewrite Hp.
    apply String.eqb_neq in Hne. rewrite Hne. apply suggestion_comment. exact Hs. }
  induction Hitems as [|s items [n [t Hs]] _ [cs [Hcs Hall]]]; cbn [flatMap].
  - exists []. split; [reflexivity | constructor].
  - rewrite (Hf s n t Hs), Hcs. simpl.
    eexists. split; [reflexivity|]. constructor; [eauto | exact Hall].
Qed.

(** X4.  For a file with a path and an array of suggestions of the declared
    type, [createComment] returns one comment per suggestion, in the order of
    the array and with duplicates kept: the body is the prefix and the
    [reviewComment], the path is the path of the file, the line is the
    [lineNumber] as a number. *)
Theorem one_comment_per_suggestion (file : File.t) (chunk : Chunk.t) (p : string)
        (items : list value)
        (Hpath : hasPath file p)
        (Htyped : Forall (fun s => exists n t, Suggests s n t) items) :
  exists cs,
    createComment file chunk (Arr items) = Ok cs
    /\ List.length cs = List.length items
    /\ Forall2 (fun s c => exists n t,
                    Suggests s n t
                    /\ c = {| body := "[GPT-REVIEW] " ++ t; path := p; line := n |})
               items cs.
Proof.
  destruct (createComment_typed_items file chunk p items Hpath Htyped) as [cs [Hcs Hall]].
  exists cs. split; [exact Hcs|]. split; [|exact Hall].
  symmetry. eapply Forall2_length. exact Hall.
Qed.

Lemma createComment_no_path (file : File.t) (chunk : Chunk.t) (items : list value) :
  File.to file = None \/ File.to file = Some "" ->
  createComment file chunk (Arr items) = Ok [].
Proof.
  intros H. unfold createComment.
  induction items as [|s items IH]; [reflexivity|].
  cbn [flatMap]. rewrite IH.
  destruct H as [-> | ->]; reflexivity.
Qed.

(** X5.  A file whose path is missing or empty gets its prompt sent all the
    same, and no comment whatever array comes back, one with [null] elements
    included: nothing is thrown. *)
Theorem no_path_no_comment openai (prDetails : PRDetails) (file : File.t) (chunk : Chunk.t)
        (st : Analysis) (items : list value)
        (Hpath : File.to file = None \/ File.to file = Some "")
        (Hanswer : answer (openai (List.length (sent st)) (createPrompt file chunk prDetails))
                   = Arr items) :
  createComment file chunk (Arr items) = Ok []
  /\ reviewChunk openai file prDetails chunk st
     = (skipped (createPrompt file chunk prDetails) st, Ok tt).
Proof.
  pose proof (createComment_no_path file chunk items Hpath) as Hnone.
  split; [exact Hnone|].
  rewrite step_eq. cbv zeta. rewrite Hanswer. simpl truthy. cbv iota.
  rewrite Hnone. unfold skipped. rewrite app_nil_r. reflexivity.
Qed.

(** X6.  For a file with a path, one [null] in the array makes
    [createComment] throw a TypeError: the comments of the other elements
    of the array are lost with it. *)
Theorem null_element_throws (file : File.t) (chunk : Chunk.t) (p : string)
        (items : list value)
        (Hpath : hasPath file p)
        (Hnull : In Null items) :
  exists m, createComment file chunk (Arr items) = Throw (TypeError m).
Proof.
  destruct (createComment file chunk (Arr items)) as [cs|e] eqn:H.
  - exfalso. unfold createComment in H.
    destruct (flatMap_returns _ _ _ H Null Hnull) as [x Hx].
    destruct Hpath as [Hp Hne]. rewrite Hp in Hx.
    apply String.eqb_neq in Hne. rewrite Hne in Hx. discriminate.
  - destruct (createComment_throws _ _ _ _ H) as [m ->]. eauto.
Qed.

(** X7.  When [getAIResponse] returns a value that counts as true and is
    not an array (an object, a number, a string, [true]), the chunk throws
    the TypeError of the missing [flatMap], after its prompt was sent and
    with no comment added. *)
Theorem not_an_array_throws openai (prDetails : PRDetails) (file : File.t) (chunk : Chunk.t)
        (st : Analysis)
        (Htruthy : truthy (answer (openai (List.length (sent st))
                                          (createPrompt file chunk prDetails))) = true)
        (Hshape : match answer (openai (List.length (sent st))
                                       (createPrompt file chunk prDetails)) with
                  | Arr _ => False
                  | _ => True
                  end) :
  reviewChunk openai file prDetails chunk st
  = (skipped (createPrompt file chunk prDetails) st,
     Throw (TypeError "aiResponses.flatMap is not a function")).
Proof.
  rewrite step_eq. cbv zeta. rewrite Htruthy.
  destruct (answer _); try contradiction; try discriminate; reflexivity.
Qed.

(** X8.  When [getAIResponse] returns a value that counts as false ([null],
    [false], [0], the empty string), the chunk sends its prompt, adds no
    comment and throws nothing. *)
Theorem falsy_answer_skipped openai (prDetails : PRDetails) (file : File.t) (chunk : Chunk.t)
        (st : Analysis)
        (Hfalsy : truthy (answer (openai (List.length (sent st))
                                         (createPrompt file chunk prDetails))) = false) :
  reviewChunk openai file prDetails chunk st
  = (skipped (createPrompt file chunk prDetails) st, Ok tt).
Proof. rewrite step_eq. cbv zeta. rewrite Hfalsy. reflexivity. Qed.

(** *** [analyzeCode] *)

Section Analysis.
Variable openai : nat -> string -> result ChatCompletion.
Variable prDetails : PRDetails.

(** What one chunk does to the state: one prompt more, and comments added
    at the end. *)
Lemma step_effect (fc : File.t * Chunk.t) (st : Analysis) :
  exists added,
    fst (step openai prDetails fc st)
    = {| sent := sent st ++ [createPrompt (fst fc) (snd fc) prDetails];
         comments := comments st ++ added |}.
Proof.
  unfold step. rewrite step_eq. cbv zeta.
  destruct (truthy _); [destruct (createComment _ _ _) as [cs|e]|]; simpl.
  - exists cs. reflexivity.
  - exists []. rewrite app_nil_r. reflexivity.
  - exists []. rewrite app_nil_r. reflexivity.
Qed.

(** The loop over [l] from [st]: it has sent the prompts of the chunks
    [done] it has visited, all of [l] unless it threw, and has added comments
    at the end. *)
Lemma run_trace (l : list (File.t * Chunk.t)) :
  forall st,
  exists done rest added,
    l = (done ++ rest)%list
    /\ sent (fst (for_each (step openai prDetails) l st))
       = (sent st ++ prompts prDetails done)%list
    /\ comments (fst (for_each (step openai prDetails) l st)) = (comments st ++ added)%list
    /\ match snd (for_each (step openai prDetails) l st) with
       | Ok _ => rest = []
       | Throw _ => True
       end.
Proof.
  induction l as [|fc l IH]; intros st.
  - exists [], [], []. simpl. rewrite !app_nil_r. auto.
  - simpl. unfold andThen.
    destruct (step_effect fc st) as [added Hst].
    destruct (step openai prDetails fc st) as [st1 [[]|e]]; simpl in Hst; subst st1.
    + destruct (IH {| sent := sent st ++ [createPrompt (fst fc) (snd fc) prDetails];
                      comments := comments st ++ added |})
        as [done [rest [more [Hl [Hsent [Hcomments Hend]]]]]].
      exists (fc :: done), rest, (added ++ more)%list. simpl in *.
      rewrite Hsent, Hcomments, <- !app_assoc. subst l. auto.
    + exists [fc], l, added. simpl. auto.
Qed.

Lemma loop_throws {A : Type} (body : A -> M unit) (l : list A) :
  forall st e,
    snd (for_each body l st) = Throw e ->
    exists a st', In a l /\ snd (body a st') = Throw e.
Proof.
  induction l as [|a l IH]; intros st e H; simpl in H; [discriminate|].
  unfold andThen in H. destruct (body a st) as [st1 [[]|e1]] eqn:Ha.
  - destruct (IH st1 e H) as [b [st' [Hb Hthrow]]]. exists b, st'. simpl. auto.
  - simpl in H. injection H as <-. exists a, st. rewrite Ha. simpl. auto.
Qed.

Lemma step_throws (fc : File.t * Chunk.t) (st : Analysis) (e : exn) :
  snd (step openai prDetails fc st) = Throw e -> exists m, e = TypeError m.
Proof.
  unfold step. rewrite step_eq. cbv zeta.
  destruct (truthy _); [|discriminate].
  destruct (createComment _ _ _) as [cs|e'] eqn:H; simpl; [discriminate|].
  intros [= <-]. eapply createComment_throws. exact H.
Qed.

Lemma analyzeCode_flat (parsedDiff : list File.t) :
  analyzeCode openai parsedDiff prDetails
  = match for_each (step openai prDetails) (work parsedDiff) start with
    | (st, Ok _) => (st, Ok (comments st))
    | (st, Throw e) => (st, Throw e)
    end.
Proof. unfold analyzeCode. rewrite loops_flat. reflexivity. Qed.

(** X1.  The prompts that [analyzeCode] sends are those of the chunks of the
    files that are not deleted, one per chunk and in the order of the diff:
    all of them when it returns, an initial part of them when it throws. *)
Theorem prompts_in_diff_order (parsedDiff : list File.t) :
  exists done rest,
    work parsedDiff = (done ++ rest)%list
    /\ sent (fst (analyzeCode openai parsedDiff prDetails)) = prompts prDetails done
    /\ match snd (analyzeCode openai parsedDiff prDetails) with
       | Ok _ => rest = []
       | Throw _ => True
       end.
Proof.
  rewrite analyzeCode_flat.
  destruct (run_trace (work parsedDiff) start) as [done [rest [added [Hl [Hsent [_ Hend]]]]]].
  exists done, rest. split; [exact Hl|].
  destruct (for_each _ (work parsedDiff) start) as [st [[]|e]]; simpl in *; auto.
Qed.

(** X2.  Whatever [analyzeCode] throws is a TypeError: a failure of the
    completion service and a SyntaxError of [JSON.parse] never leave it. *)
Theorem only_type_errors (parsedDiff : list File.t) (e : exn)
        (Hthrows : snd (analyzeCode openai parsedDiff prDetails) = Throw e) :
  exists m, e = TypeError m.
Proof.
  rewrite analyzeCode_flat in Hthrows.
  destruct (for_each _ (work parsedDiff) start) as [st [[]|e']] eqn:Hrun; [discriminate|].
  simpl in Hthrows. injection Hthrows as <-.
  assert (H : snd (for_each (step openai prDetails) (work parsedDiff) start) = Throw e')
    by (rewrite Hrun; reflexivity).
  apply loop_throws in H. destruct H as [fc [st' [_ H]]].
  eapply step_throws. exact H.
Qed.

(** X16.  The loop of [analyzeCode] only appends: from any state, the
    prompts sent and the comments accumulated before are still there, in
    front and in their order, when the loop ends or throws. *)
Theorem accumulator_append_only (parsedDiff : list File.t) (st : Analysis) :
  exists prompts added,
    sent (fst (for_each (reviewFile openai prDetails) parsedDiff st))
    = (sent st ++ prompts)%list
    /\ comments (fst (for_each (reviewFile openai prDetails) parsedDiff st))
       = (comments st ++ added)%list.
Proof.
  rewrite loops_flat.
  destruct (run_trace (work parsedDiff) st) as [done [rest [added [_ [Hsent [Hcomments _]]]]]].
  eauto.
Qed.

Lemma loop_returns (l : list (File.t * Chunk.t)) :
  (forall fc st, In fc l -> exists u, snd (step openai prDetails fc st) = Ok u) ->
  forall st, exists u, snd (for_each (step openai prDetails) l st) = Ok u.
Proof.
  induction l as [|fc l IH]; intros Hstep st; simpl; [eauto|].
  unfold andThen.
  destruct (Hstep fc st (or_introl eq_refl)) as [u Hu].
  destruct (step openai prDetails fc st) as [st1 [[]|e]]; [|discriminate].
  apply IH. intros fc' st' Hin. apply Hstep. right. exact Hin.
Qed.

(** X18.  When every reply has the declared type (it reads as false or as
    an array of suggestions), [analyzeCode] returns, whatever the diff. *)
Theorem typed_replies_never_throw (parsedDiff : list File.t)
        (Htyped : forall k prompt, typedAnswer (answer (openai k prompt))) :
  exists cs, snd (analyzeCode openai parsedDiff prDetails) = Ok cs.
Proof.
  rewrite analyzeCode_flat.
  destruct (loop_returns (work parsedDiff)) with (st := start) as [u Hu].
  - intros [file chunk] st _. unfold step. simpl fst. simpl snd. rewrite step_eq. cbv zeta.
    destruct (Htyped (List.length (sent st)) (createPrompt file chunk prDetails))
      as [Hfalse | [items [Hitems Hall]]].
    + rewrite Hfalse. simpl. eauto.
    + rewrite Hitems. simpl truthy. cbv iota.
      destruct (File.to file) as [p|] eqn:Hp.
      * destruct (String.eqb_spec p "") as [->|Hne].
        -- rewrite (createComment_no_path file chunk items (or_intror Hp)). simpl. eauto.
        -- destruct (createComment_typed_items file chunk p items (conj Hp Hne) Hall)
             as [cs [-> _]]. simpl. eauto.
      * rewrite (createComment_no_path file chunk items (or_introl Hp)). simpl. eauto.
  - destruct (for_each _ (work parsedDiff) start) as [st [[]|e]];
      [simpl; eauto | discriminate].
Qed.

(** X3.  When no reply can be read (every call fails, or has no text, or
    has text that is blank or is not JSON), [analyzeCode] still sends the
    prompt of every chunk of every file that is not deleted, and returns no
    comment. *)
Theorem nothing_readable (parsedDiff : list File.t)
        (Hunusable : forall k prompt, unusable (openai k prompt) = true) :
  analyzeCode openai parsedDiff prDetails
  = ({| sent := prompts prDetails (work parsedDiff); comments := [] |}, Ok []).
Proof.
  rewrite analyzeCode_flat.
  assert (H : forall l st,
             for_each (step openai prDetails) l st
             = ({| sent := sent st ++ prompts prDetails l; comments := comments st |}, Ok tt)).
  { induction l as [|[file chunk] l IH]; intros st; simpl.
    - rewrite app_nil_r. destruct st; reflexivity.
    - unfold andThen, step at 1. simpl fst. simpl snd. rewrite step_eq. cbv zeta.
      destruct (unusable_answer _ (Hunusable (List.length (sent st))
                                             (createPrompt file chunk prDetails)))
        as [-> | ->]; simpl; rewrite IH; simpl; rewrite <- ?app_assoc, ?app_nil_r; reflexivity. }
  rewrite H. reflexivity.
Qed.

(** A loop that starts later sees the service later: with the prompts
    [pre] and the comments [cpre] in front, it is the same loop. *)
Lemma run_later (l : list (File.t * Chunk.t)) :
  forall st st' pre cpre,
    sent st = (pre ++ sent st')%list ->
    comments st = (cpre ++ comments st')%list ->
    sent (fst (for_each (step openai prDetails) l st))
    = (pre ++ sent (fst (for_each (step (later (List.length pre) openai) prDetails) l st')))%list
    /\ comments (fst (for_each (step openai prDetails) l st))
       = (cpre ++ comments (fst (for_each (step (later (List.length pre) openai) prDetails)
                                          l st')))%list
    /\ snd (for_each (step openai prDetails) l st)
       = snd (for_each (step (later (List.length pre) openai) prDetails) l st').
Proof.
  induction l as [|[file chunk] l IH]; intros st st' pre cpre Hsent Hcomments; [simpl; auto|].
  simpl. unfold andThen, step at 1 3 5 7 9 11. simpl fst. simpl snd.
  rewrite !step_eq. cbv zeta.
  assert (Hreply : later (List.length pre) openai (List.length (sent st'))
                         (createPrompt file chunk prDetails)
                   = openai (List.length (sent st)) (createPrompt file chunk prDetails)).
  { unfold later. rewrite Hsent, length_app. reflexivity. }
  rewrite Hreply.
  destruct (truthy _).
  - destruct (createComment _ _ _) as [cs|e]; simpl.
    + apply IH; simpl; [rewrite Hsent | rewrite Hcomments]; rewrite app_assoc; reflexivity.
    + rewrite Hsent, Hcomments, app_assoc. auto.
  - apply IH; simpl; [rewrite Hsent, app_assoc | rewrite Hcomments]; reflexivity.
Qed.

(** X15.  [analyzeCode] on two diffs put end to end is [analyzeCode] on the
    first and then, unless that threw, on the second, against the service as
    the first run leaves it: the prompts and the comments of the second run
    come after those of the first. *)
Theorem analyzeCode_app (first second : list File.t) :
  analyzeCode openai (first ++ second) prDetails
  = match analyzeCode openai first prDetails with
    | (st1, Throw e) => (st1, Throw e)
    | (st1, Ok cs1) =>
        match analyzeCode (later (List.length (sent st1)) openai) second prDetails with
        | (st2, Ok cs2) =>
            ({| sent := sent st1 ++ sent st2; comments := cs1 ++ cs2 |}, Ok (cs1 ++ cs2)%list)
        | (st2, Throw e) =>
            ({| sent := sent st1 ++ sent st2; comments := cs1 ++ comments st2 |}, Throw e)
        end
    end.
Proof.
  unfold analyzeCode. rewrite !loops_flat, work_app, for_each_app.
  destruct (for_each (step openai prDetails) (work first) start) as [st1 [[]|e1]];
    [|reflexivity].
  rewrite loops_flat.
  destruct (run_later (work second) st1 start (sent st1) (comments st1))
    as [Hsent [Hcomments Hend]]; [simpl; rewrite app_nil_r; reflexivity .. |].
  destruct (for_each (step openai prDetails) (work second) st1) as [[s c] r].
  destruct (for_each (step (later _ openai) prDetails) (work second) start) as [[s2 c2] r2].
  simpl in *. subst s c r. destruct r2 as [[]|e2]; reflexivity.
Qed.

Lemma run_contributions (l : list (File.t * Chunk.t)) :
  forall st u,
    snd (for_each (step openai prDetails) l st) = Ok u ->
    comments (fst (for_each (step openai prDetails) l st))
    = (comments st ++ contributions openai prDetails (List.length (sent st)) l)%list.
Proof.
  induction l as [|[file chunk] l IH]; intros st u H; simpl in *.
  - rewrite app_nil_r. reflexivity.
  - unfold andThen in *.
    change (step openai prDetails (file, chunk) st)
      with (reviewChunk openai file prDetails chunk st) in *.
    rewrite step_eq in *. cbv zeta in *.
    unfold contribution. simpl fst. simpl snd.
    destruct (truthy _).
    + destruct (createComment _ _ _) as [cs|e]; [|discriminate].
      rewrite (IH _ u H). simpl. rewrite length_app, Nat.add_1_r, app_assoc. reflexivity.
    + rewrite (IH _ u H). simpl. rewrite length_app, Nat.add_1_r. reflexivity.
Qed.

(** X21.  The comments that [analyzeCode] returns are, in the order of the
    diff, the comments of each chunk of each file that is not deleted: those
    that [createComment] makes of the reply to the chunk's own call. *)
Theorem comments_in_diff_order (parsedDiff : list File.t) (cs : list Comment)
        (Hreturns : snd (analyzeCode openai parsedDiff prDetails) = Ok cs) :
  cs = contributions openai prDetails 0 (work parsedDiff).
Proof.
  rewrite analyzeCode_flat in Hreturns.
  pose proof (run_contributions (work parsedDiff) start tt) as H.
  destruct (for_each _ (work parsedDiff) start) as [st [[]|e]]; [|discriminate].
  simpl in *. injection Hreturns as <-. apply H. reflexivity.
Qed.

End Analysis.

(** *** [main] *)

Section Whole.
Variable openai : nat -> string -> result ChatCompletion.
Variable minimatch : string -> string -> bool.
Variable parseDiff : string -> result (list File.t).
Variable octokit : Octokit.
Variable readEvent : result Event.
Variable exclude : string.

Local Abbreviation run := (main openai minimatch parseDiff octokit readEvent exclude).
Local Abbreviation included := (filter (shouldInclude minimatch exclude)).

Lemma getPRDetails_event (prDetails : PRDetails) :
  getPRDetails octokit readEvent = Ok prDetails -> exists ev, readEvent = Ok ev.
Proof. unfold getPRDetails. destruct readEvent as [ev|e]; [eauto | discriminate]. Qed.

(** A run that has its details, its event, a diff that is not empty and the
    files of that diff goes on to filter, analyse and submit. *)
Lemma main_on_path (ev : Event) (prDetails : PRDetails) (diff : string)
      (files : list File.t) :
  readEvent = Ok ev ->
  getPRDetails octokit readEvent = Ok prDetails ->
  fetched octokit ev prDetails diff ->
  diff <> "" ->
  parseDiff diff = Ok files ->
  run = review openai minimatch octokit exclude prDetails files.
Proof.
  intros Hev Hpr Hdiff Hne Hparse. unfold main. rewrite Hpr, Hev.
  apply String.eqb_neq in Hne.
  destruct Hdiff as [[Hact Hget] | [Hact Hget]]; rewrite Hact; simpl String.eqb; cbv iota.
  - unfold getDiff. rewrite Hget. simpl. rewrite Hne, Hparse. reflexivity.
  - rewrite Hget. simpl. rewrite Hne, Hparse. reflexivity.
Qed.

(** Every run stops before the analysis or is on that path. *)
Lemma main_paths :
  (exists r, run = stop r)
  \/ (exists ev prDetails diff files,
        readEvent = Ok ev
        /\ getPRDetails octokit readEvent = Ok prDetails
        /\ fetched octokit ev prDetails diff
        /\ diff <> ""
        /\ parseDiff diff = Ok files
        /\ run = review openai minimatch octokit exclude prDetails files).
Proof.
  destruct (getPRDetails octokit readEvent) as [prDetails|e] eqn:Hpr;
    [|left; unfold main; rewrite Hpr; eauto].
  destruct (getPRDetails_event prDetails Hpr) as [ev Hev].
  destruct (String.eqb_spec (action ev) "opened") as [Hopened|Hnot].
  - destruct (pulls_get_diff octokit (owner prDetails) (repo prDetails) (pull_number prDetails))
      as [[diff|]|e] eqn:Hget.
    + destruct (String.eqb_spec diff "") as [->|Hne].
      * left. unfold main, getDiff. rewrite Hpr, Hev, Hopened, Hget. simpl. eauto.
      * destruct (parseDiff diff) as [files|e] eqn:Hparse.
        -- right. exists ev, prDetails, diff, files.
           assert (Hf : fetched octokit ev prDetails diff) by (left; auto).
           repeat (split; [assumption || reflexivity|]).
           apply (main_on_path ev prDetails diff files); assumption.
        -- left. unfold main, getDiff. rewrite Hpr, Hev, Hopened, Hget. simpl.
           apply String.eqb_neq in Hne. rewrite Hne, Hparse. eauto.
    + left. unfold main, getDiff. rewrite Hpr, Hev, Hopened, Hget. simpl. eauto.
    + left. unfold main, getDiff. rewrite Hpr, Hev, Hopened, Hget. simpl. eauto.
  - apply String.eqb_neq in Hnot.
    destruct (String.eqb_spec (action ev) "synchronize") as [Hsync|Hother].
    + destruct (repos_compareCommits octokit (owner prDetails) (repo prDetails)
                                     (before ev) (after ev)) as [diff|e] eqn:Hget.
      * destruct (String.eqb_spec diff "") as [->|Hne].
        -- left. unfold main. rewrite Hpr, Hev, Hnot, Hget.
           rewrite Hsync. simpl. eauto.
        -- destruct (parseDiff diff) as [files|e] eqn:Hparse.
           ++ right. exists ev, prDetails, diff, files.
              assert (Hf : fetched octokit ev prDetails diff) by (right; auto).
              repeat (split; [assumption || reflexivity|]).
              apply (main_on_path ev prDetails diff files); assumption.
           ++ left. unfold main. rewrite Hpr, Hev, Hnot, Hget. rewrite Hsync. simpl.
              apply String.eqb_neq in Hne. rewrite Hne, Hparse. eauto.
      * left. unfold main. rewrite Hpr, Hev, Hnot, Hget. rewrite Hsync. simpl. eauto.
    + left. unfold main. rewrite Hpr, Hev, Hnot.
      apply String.eqb_neq in Hother. rewrite Hother. simpl. eauto.
Qed.

Lemma review_analysis (prDetails : PRDetails) (files : list File.t) :
  analysis (review openai minimatch octokit exclude prDetails files)
  = fst (analyzeCode openai (included files) prDetails).
Proof.
  unfold review. destruct (analyzeCode _ _ _) as [st [cs|e]]; [|reflexivity].
  destruct (0 <? List.length cs)%nat; reflexivity.
Qed.

Lemma review_reviews (prDetails : PRDetails) (files : list File.t) :
  reviews (review openai minimatch octokit exclude prDetails files)
  = match snd (analyzeCode openai (included files) prDetails) with
    | Ok [] => []
    | Ok cs => [submission prDetails cs]
    | Throw _ => []
    end.
Proof.
  unfold review. destruct (analyzeCode _ _ _) as [st [[|c cs]|e]]; reflexivity.
Qed.

(** C8.  Take a run that read its event and its details, fetched for an
    [opened] or [synchronize] event a diff that is not empty, and parsed it.
    When the list that [analyzeCode] returns for the files that pass the
    filter is not empty, the run submits it whole in exactly one review, with
    the event ["COMMENT"], and ends as that call ends.  When the list is
    empty, the run submits no review and ends normally.  When [analyzeCode]
    throws, nothing is submitted.  There is no other case, so the comments
    are submitted all in that one call or not at all. *)
Theorem comments_submitted_once (ev : Event) (prDetails : PRDetails) (diff : string)
        (files : list File.t)
        (Hevent : readEvent = Ok ev)
        (Hdetails : getPRDetails octokit readEvent = Ok prDetails)
        (Hdiff : fetched octokit ev prDetails diff)
        (Hnonempty : diff <> "")
        (Hparse : parseDiff diff = Ok files) :
  analysis run = fst (analyzeCode openai (included files) prDetails)
  /\ match snd (analyzeCode openai (included files) prDetails) with
     | Ok [] => reviews run = [] /\ exit run = Ok tt
     | Ok cs => reviews run = [submission prDetails cs]
                /\ exit run = pulls_createReview octokit (submission prDetails cs)
     | Throw e => reviews run = [] /\ exit run = Throw e
     end.
Proof.
  rewrite (main_on_path ev prDetails diff files Hevent Hdetails Hdiff Hnonempty Hparse).
  split; [apply review_analysis|].
  rewrite review_reviews. unfold review.
  destruct (analyzeCode openai (included files) prDetails) as [st [[|c cs]|e]];
    simpl; split; reflexivity.
Qed.

(** X10.  For an event that is neither [opened] nor [synchronize], a run
    that has its pull request details ends normally at once: no prompt is
    sent and no review is submitted, whatever the hosting API and the
    completion service would answer. *)
Theorem unsupported_event_skipped (ev : Event) (prDetails : PRDetails)
        (Hevent : readEvent = Ok ev)
        (Hdetails : getPRDetails octokit readEvent = Ok prDetails)
        (Hopened : action ev <> "opened")
        (Hsynchronize : action ev <> "synchronize") :
  run = {| analysis := start; reviews := []; exit := Ok tt |}.
Proof.
  unfold main. rewrite Hdetails, Hevent.
  apply String.eqb_neq in Hopened, Hsynchronize. rewrite Hopened, Hsynchronize. reflexivity.
Qed.

(** X11.  When the diff of an opened pull request is [null] or empty, or
    the comparison of a synchronized one is empty, the run ends normally
    without parsing: no prompt is sent and no review is submitted. *)
Theorem empty_diff_skipped (ev : Event) (prDetails : PRDetails)
        (Hevent : readEvent = Ok ev)
        (Hdetails : getPRDetails octokit readEvent = Ok prDetails)
        (Hempty : (action ev = "opened"
                   /\ (getDiff octokit (owner prDetails) (repo prDetails)
                               (pull_number prDetails) = Ok None
                       \/ getDiff octokit (owner prDetails) (repo prDetails)
                                  (pull_number prDetails) = Ok (Some "")))
                  \/ (action ev = "synchronize"
                      /\ repos_compareCommits octokit (owner prDetails) (repo prDetails)
                                              (before ev) (after ev) = Ok "")) :
  run = {| analysis := start; reviews := []; exit := Ok tt |}.
Proof.
  unfold main. rewrite Hdetails, Hevent.
  destruct Hempty as [[-> [-> | ->]] | [-> ->]]; reflexivity.
Qed.

(** X19.  When the event cannot be read, or the hosting API fails on the
    details or on the diff, or the diff parser throws, the run ends with that
    exception: no prompt is sent and no review is submitted. *)
Theorem upstream_failure_ends_run (e : exn)
        (Hfails : getPRDetails octokit readEvent = Throw e
                  \/ exists ev prDetails,
                      readEvent = Ok ev
                      /\ getPRDetails octokit readEvent = Ok prDetails
                      /\ ((action ev = "opened"
                           /\ getDiff octokit (owner prDetails) (repo prDetails)
                                      (pull_number prDetails) = Throw e)
                          \/ (action ev = "synchronize"
                              /\ repos_compareCommits octokit (owner prDetails)
                                   (repo prDetails) (before ev) (after ev) = Throw e)
                          \/ exists diff,
                              fetched octokit ev prDetails diff /\ diff <> ""
                              /\ parseDiff diff = Throw e)) :
  run = {| analysis := start; reviews := []; exit := Throw e |}.
Proof.
  unfold main.
  destruct Hfails as [-> | [ev [prDetails [Hev [Hpr Hcase]]]]]; [reflexivity|].
  rewrite Hpr, Hev.
  destruct Hcase as [[-> ->] | [[-> ->] | [diff [Hf [Hne Hparse]]]]]; try reflexivity.
  apply String.eqb_neq in Hne.
  destruct Hf as [[-> Hget] | [-> Hget]]; simpl String.eqb; cbv iota.
  - unfold getDiff. rewrite Hget. simpl. rewrite Hne, Hparse. reflexivity.
  - rewrite Hget. simpl. rewrite Hne, Hparse. reflexivity.
Qed.

(** X12.  A review is submitted only by a run that read its event and its
    details, fetched for an [opened] or [synchronize] event a diff that is
    not empty, parsed it, and got from [analyzeCode] on the files that pass
    the filter a list of comments that is not empty; the review is that
    list, for that pull request, with the event ["COMMENT"]. *)
Theorem review_only_after_analysis (r : Review)
        (Hsubmitted : In r (reviews run)) :
  exists ev prDetails diff files cs,
    readEvent = Ok ev
    /\ getPRDetails octokit readEvent = Ok prDetails
    /\ fetched octokit ev prDetails diff
    /\ diff <> ""
    /\ parseDiff diff = Ok files
    /\ snd (analyzeCode openai (included files) prDetails) = Ok cs
    /\ cs <> []
    /\ r = submission prDetails cs.
Proof.
  destruct main_paths as [[x Hstop] | [ev [prDetails [diff [files H]]]]].
  - rewrite Hstop in Hsubmitted. contradiction.
  - destruct H as [Hev [Hpr [Hf [Hne [Hparse Hrun]]]]].
    rewrite Hrun, review_reviews in Hsubmitted.
    destruct (snd (analyzeCode openai (included files) prDetails)) as [[|c cs]|e] eqn:Hcs;
      try contradiction.
    destruct Hsubmitted as [<-|[]].
    exists ev, prDetails, diff, files, (c :: cs).
    repeat (split; [assumption || reflexivity|]). split; [discriminate | reflexivity].
Qed.

Lemma sent_from_work (prDetails : PRDetails) (files : list File.t) :
  Forall (fun prompt => exists fc,
              In fc (work files) /\ prompt = createPrompt (fst fc) (snd fc) prDetails)
         (sent (fst (analyzeCode openai files prDetails))).
Proof.
  rewrite analyzeCode_flat.
  destruct (run_trace openai prDetails (work files) start)
    as [done [rest [added [Hl [Hsent _]]]]].
  assert (Hs : sent (fst (for_each (step openai prDetails) (work files) start))
               = prompts prDetails done) by exact Hsent.
  destruct (for_each _ (work files) start) as [st [[]|e]]; simpl in *; rewrite Hs;
    apply Forall_forall; intros prompt Hin; apply in_map_iff in Hin;
    destruct Hin as [fc [<- Hfc]]; exists fc; (split; [|reflexivity]);
    rewrite Hl; apply in_or_app; left; exact Hfc.
Qed.

(** X9.  Every prompt that a run sends is the prompt of a chunk of a file
    of the parsed diff that passes the filter and is not a deleted file: an
    excluded file never reaches the completion service. *)
Theorem prompts_only_for_included_files :
  Forall (fun prompt =>
            exists prDetails diff files file chunk,
              getPRDetails octokit readEvent = Ok prDetails
              /\ parseDiff diff = Ok files
              /\ In file files
              /\ shouldInclude minimatch exclude file = true
              /\ File.to file <> Some "/dev/null"
              /\ In chunk (File.chunks file)
              /\ prompt = createPrompt file chunk prDetails)
         (sent (analysis run)).
Proof.
  destruct main_paths as [[x ->] | [ev [prDetails [diff [files H]]]]]; [constructor|].
  destruct H as [Hev [Hpr [Hf [Hne [Hparse ->]]]]].
  rewrite review_analysis.
  eapply Forall_impl; [|apply sent_from_work].
  intros prompt [[file chunk] [Hin ->]].
  apply in_work in Hin. destruct Hin as [Hfile [Hd Hchunk]].
  apply filter_In in Hfile. destruct Hfile as [Hfile Hinc].
  exists prDetails, diff, files, file, chunk. simpl.
  repeat (split; [assumption|]). split; [|split; [assumption | reflexivity]].
  intros Hto. apply deleted_to in Hto. congruence.
Qed.

(** X14.  When every file of the diff matches an exclude pattern, the run
    sends no prompt, submits no review and ends normally. *)
Theorem all_excluded_nothing_done (ev : Event) (prDetails : PRDetails) (diff : string)
        (files : list File.t)
        (Hevent : readEvent = Ok ev)
        (Hdetails : getPRDetails octokit readEvent = Ok prDetails)
        (Hdiff : fetched octokit ev prDetails diff)
        (Hnonempty : diff <> "")
        (Hparse : parseDiff diff = Ok files)
        (Hexcluded : Forall (fun file =>
                               exists pattern,
                                 In pattern (excludePatterns exclude)
                                 /\ minimatch (matchedPath file) pattern = true) files) :
  run = {| analysis := start; reviews := []; exit := Ok tt |}.
Proof.
  rewrite (main_on_path ev prDetails diff files Hevent Hdetails Hdiff Hnonempty Hparse).
  unfold review.
  assert (Hnone : included files = []).
  { clear - Hexcluded. induction Hexcluded as [|file fs [pattern [Hin Hm]] _ IH]; [reflexivity|].
    simpl. unfold shouldInclude at 1.
    assert (Hex : existsb (fun pattern => minimatch (matchedPath file) pattern)
                          (excludePatterns exclude) = true)
      by (apply existsb_exists; eauto).
    unfold matchedPath in Hex. rewrite Hex. simpl. exact IH. }
  rewrite Hnone. reflexivity.
Qed.

End Whole.

(** *** The exclude patterns *)

Lemma strip_prefix_keeps (p l r : list ascii) (x : ascii) :
  strip_prefix p l = Some r -> In x r -> In x l.
Proof.
  revert l. induction p as [|a p IH]; intros l H Hx; simpl in H.
  - injection H as <-. exact Hx.
  - destruct l as [|b l]; [discriminate|].
    destruct (Ascii.eqb a b); [|discriminate]. right. eapply IH; eauto.
Qed.

Lemma strip_any_keeps (ps : list (list ascii)) (l r : list ascii) (x : ascii) :
  strip_any ps l = Some r -> In x r -> In x l.
Proof.
  induction ps as [|p ps IH]; simpl; [discriminate|].
  destruct (strip_prefix p l) as [r'|] eqn:Hp.
  - intros [= <-]. eapply strip_prefix_keeps. exact Hp.
  - exact IH.
Qed.

Lemma strip_all_keeps (n : nat) (ps : list (list ascii)) (x : ascii) :
  forall l, In x (strip_all n ps l) -> In x l.
Proof.
  induction n as [|n IH]; intros l H; simpl in H; [exact H|].
  destruct (strip_any ps l) as [r|] eqn:Hr; [|exact H].
  eapply strip_any_keeps; [exact Hr | apply IH; exact H].
Qed.

(** [trim] only takes characters away. *)
Lemma trim_keeps (s : string) (x : ascii) : In x (chars (trim s)) -> In x (chars s).
Proof.
  unfold trim, chars, text. rewrite list_ascii_of_string_of_list_ascii.
  unfold trim_end, trim_start. intros H.
  apply in_rev in H. apply strip_all_keeps in H. apply in_rev in H.
  apply strip_all_keeps in H. exact H.
Qed.

Lemma split_length (sep : ascii) (s : string) :
  List.length (split sep s) = S (occurrences sep s).
Proof.
  induction s as [|c s IH]; [reflexivity|]. simpl.
  destruct (Ascii.eqb c sep); simpl; [rewrite IH; reflexivity|].
  destruct (split sep s) as [|h t]; [discriminate | exact IH].
Qed.

Lemma split_pieces (sep : ascii) (s : string) :
  Forall (fun piece => ~ In sep (chars piece)) (split sep s).
Proof.
  induction s as [|c s IH]; simpl.
  - constructor; [intros [] | constructor].
  - destruct (Ascii.eqb_spec c sep) as [->|Hne].
    + constructor; [intros [] | exact IH].
    + destruct (split sep s) as [|h t]; [constructor; [|constructor]|].
      * simpl. intros [H|[]]. congruence.
      * inversion IH as [|? ? Hh Ht]; subst. constructor; [|exact Ht].
        simpl. intros [H|H]; [congruence | contradiction].
Qed.

(** X13.  The exclude input gives one pattern more than it has commas, so
    at least one (the empty input gives the empty pattern), and no pattern
    holds a comma. *)
Theorem exclude_patterns_count (exclude : string) :
  List.length (excludePatterns exclude) = S (occurrences "," exclude)
  /\ Forall (fun pattern => ~ In ","%char (chars pattern)) (excludePatterns exclude).
Proof.
  unfold excludePatterns. split.
  - rewrite length_map. apply split_length.
  - apply Forall_map. eapply Forall_impl; [|apply split_pieces].
    intros piece Hpiece Hin. apply Hpiece. eapply trim_keeps. exact Hin.
Qed.

(** X17.  Splitting a string at a character and joining the pieces with
    that character gives the string back. *)
Theorem split_join (sep : ascii) (s : string) :
  join (String sep "") (split sep s) = s.
Proof.
  induction s as [|c s IH]; [reflexivity|]. simpl.
  pose proof (split_length sep s) as Hlen.
  destruct (split sep s) as [|h t]; [discriminate|].
  destruct (Ascii.eqb_spec c sep) as [->|Hne].
  - change (join (String sep "") ("" :: h :: t))
      with (String sep (join (String sep "") (h :: t))).
    rewrite IH. reflexivity.
  - destruct t as [|h' t].
    + simpl in *. rewrite IH. reflexivity.
    + change (join (String sep "") (String c h :: h' :: t))
        with (String c (join (String sep "") (h :: h' :: t))).
      rewrite IH. reflexivity.
Qed.

(** *** Line numbers *)

Lemma digit_not_space (c : ascii) (r : list ascii) :
  is_digit c = true ->
  strip_any whitespace (c :: r) = None
  /\ strip_any (map (@rev ascii) whitespace) (c :: r) = None.
Proof.
  intros H. destruct c as [[] [] [] [] [] [] [] []]; vm_compute in H; try discriminate;
    split; reflexivity.
Qed.

Lemma trim_start_digit (c : ascii) (r : list ascii) :
  is_digit c = true -> trim_start (c :: r) = c :: r.
Proof.
  intros H. unfold trim_start. simpl List.length. cbn [strip_all].
  rewrite (proj1 (digit_not_space c r H)). reflexivity.
Qed.

Lemma trim_end_digit (l : list ascii) (c : ascii) :
  is_digit c = true -> trim_end (l ++ [c]) = (l ++ [c])%list.
Proof.
  intros H. unfold trim_end. set (ws := map (@rev ascii) whitespace).
  rewrite rev_app_distr. change (rev [c] ++ rev l)%list with (c :: rev l).
  rewrite length_app, Nat.add_1_r. cbn [strip_all]. unfold ws.
  rewrite (proj2 (digit_not_space c (rev l) H)).
  simpl. rewrite rev_involutive. reflexivity.
Qed.

Lemma trim_digits (l : list ascii) :
  l <> [] -> forallb is_digit l = true -> trim_end (trim_start l) = l.
Proof.
  intros Hne Hall.
  assert (Hstart : trim_start l = l).
  { destruct l as [|c r]; [contradiction|]. simpl in Hall.
    apply andb_true_iff in Hall. apply trim_start_digit. apply Hall. }
  rewrite Hstart.
  destruct (exists_last Hne) as [l' [c ->]].
  rewrite forallb_app in Hall. apply andb_true_iff in Hall. destruct Hall as [_ Hc].
  simpl in Hc. rewrite andb_true_r in Hc. apply trim_end_digit. exact Hc.
Qed.

Lemma span_digits (l : list ascii) : forallb is_digit l = true -> span is_digit l = (l, []).
Proof.
  induction l as [|c r IH]; [reflexivity|]. simpl. intros H.
  apply andb_true_iff in H. destruct H as [Hc Hr]. rewrite Hc, (IH Hr). reflexivity.
Qed.

Lemma signed_decimal_digits (c : ascii) (r : list ascii) :
  is_digit c = true -> forallb is_digit r = true ->
  signed_decimal (c :: r) = int (digits_value 10 (c :: r)).
Proof.
  intros Hc Hr. unfold signed_decimal.
  assert (Hsign : match c :: r with
                  | "-"%char :: r' => (true, r')
                  | "+"%char :: r' => (false, r')
                  | _ => (false, c :: r)
                  end = (false, c :: r)).
  { destruct c as [[] [] [] [] [] [] [] []]; vm_compute in Hc; try discriminate; reflexivity. }
  rewrite Hsign.
  assert (Hinf : String.eqb (text (c :: r)) "Infinity" = false).
  { destruct c as [[] [] [] [] [] [] [] []]; vm_compute in Hc; try discriminate; reflexivity. }
  rewrite Hinf. unfold scan_decimal.
  rewrite (span_digits (c :: r)) by (simpl; rewrite Hc, Hr; reflexivity).
  cbn [scan_exponent is_nil negb orb andb]. unfold decimal_value.
  rewrite app_nil_r. reflexivity.
Qed.

Lemma number_of_digits (l : list ascii) :
  l <> [] -> forallb is_digit l = true ->
  StringToNumber (text l) = int (digits_value 10 l).
Proof.
  intros Hne Hall. unfold StringToNumber, chars, text.
  rewrite list_ascii_of_string_of_list_ascii, (trim_digits l Hne Hall).
  destruct l as [|c1 r]; [contradiction|].
  simpl in Hall. apply andb_true_iff in Hall. destruct Hall as [H1 Hr].
  rewrite <- (signed_decimal_digits c1 r H1 Hr).
  destruct r as [|c2 r]; [destruct c1 as [[] [] [] [] [] [] [] []]; reflexivity|].
  simpl in Hr. apply andb_true_iff in Hr. destruct Hr as [H2 _].
  destruct c1 as [[] [] [] [] [] [] [] []]; vm_compute in H1; try discriminate; try reflexivity;
    destruct c2 as [[] [] [] [] [] [] [] []]; vm_compute in H2; try discriminate; reflexivity.
Qed.

Lemma strip_zeros_keeps (k : nat) :
  forall m e, (0 <= m)%Z -> (0 <= e)%Z ->
              (0 <= fst (strip_zeros k m e))%Z /\ (0 <= snd (strip_zeros k m e))%Z.
Proof.
  induction k as [|k IH]; intros m e Hm He; simpl; [auto|].
  destruct (m mod 10 =? 0)%Z; [|auto].
  apply IH; [apply Z.div_pos; lia | lia].
Qed.

Lemma finite_keeps (m e : Z) :
  (0 <= m)%Z -> (0 <= e)%Z ->
  exists m' e', finite m e = Finite m' e' /\ (0 <= m')%Z /\ (0 <= e')%Z.
Proof.
  intros Hm He. unfold finite. destruct (m =? 0)%Z.
  - exists 0%Z, 0%Z. repeat split; lia.
  - pose proof (strip_zeros_keeps (Z.to_nat (Z.log2 (Z.abs m))) m e Hm He) as H.
    destruct (strip_zeros _ m e) as [m' e']. exists m', e'. simpl in H. tauto.
Qed.

Lemma digits_value_keeps (l : list ascii) :
  forallb is_digit l = true -> (0 <= digits_value 10 l)%Z.
Proof.
  assert (H : forall r acc, forallb is_digit r = true -> (0 <= acc)%Z ->
                            (0 <= fold_left (fun a c => a * 10 + hex_digit_value c) r acc)%Z).
  { induction r as [|c r IH]; intros acc Hr Hacc; simpl; [exact Hacc|].
    simpl in Hr. apply andb_true_iff in Hr. destruct Hr as [Hc Hr].
    apply IH; [exact Hr|]. unfold hex_digit_value. rewrite Hc.
    unfold is_digit in Hc. apply andb_true_iff in Hc. lia. }
  intros Hall. unfold digits_value. apply H; [exact Hall | lia].
Qed.

(** X20.  A [lineNumber] that is a string of decimal digits, for an
    integer up to 2^53, becomes the line that it writes, a non-negative
    integer. *)
Theorem digits_give_the_line (l : list ascii)
        (Hsome : l <> [])
        (Hdigits : forallb is_digit l = true)
        (Hexact : (digits_value 10 l <= 2 ^ 53)%Z) :
  Number (Some (Str (text l))) = Ok (int (digits_value 10 l))
  /\ nonNegativeInteger (int (digits_value 10 l)) = true.
Proof.
  split; [simpl; rewrite (number_of_digits l Hsome Hdigits); reflexivity|].
  pose proof (digits_value_keeps l Hdigits) as Hz.
  unfold nonNegativeInteger, int.
  destruct (finite_keeps (digits_value 10 l) 0 Hz (Z.le_refl 0)) as [m [e [-> [Hm He]]]].
  simpl normal.
  destruct (finite_keeps m e Hm He) as [m' [e' [-> [Hm' He']]]].
  apply andb_true_iff. split; apply Z.leb_le; assumption.
Qed.

(** *** The properties at sample inputs *)

(** The scenario of the specification: an opened pull request with [x.md],
    excluded by the pattern, and [y.ts], for which the service suggests a
    comment on line 5. *)
Example end_to_end :
  main (always line5) md_only two_files (host (Some "diff --git a/x.md b/x.md") "")
       (Ok (event "opened")) "**/*.json, **/*.md"
  = {| analysis :=
         {| sent := [createPrompt y_ts (List.hd chunk0 (File.chunks y_ts)) pr1];
            comments := [ {| body := "[GPT-REVIEW] use const"; path := "y.ts";
                             line := Finite 5 0 |} ] |};
       reviews := [ submission pr1 [ {| body := "[GPT-REVIEW] use const"; path := "y.ts";
                                        line := Finite 5 0 |} ] ];
       exit := Ok tt |}.
Proof. vm_compute. reflexivity. Qed.

(** The scenario as a run that submits: the one comment, in one review. *)
Lemma comments_submitted_once_witness :
  reviews (main (always line5) md_only two_files (host (Some "diff --git") "")
                (Ok (event "opened")) "**/*.md")
  = [ submission pr1 [ {| body := "[GPT-REVIEW] use const"; path := "y.ts";
                          line := Finite 5 0 |} ] ]
  /\ exit (main (always line5) md_only two_files (host (Some "diff --git") "")
                (Ok (event "opened")) "**/*.md")
     = Ok tt.
Proof.
  pose proof (comments_submitted_once (always line5) md_only two_files
                (host (Some "diff --git") "") (Ok (event "opened")) "**/*.md"
                (event "opened") pr1 "diff --git" [x_md; y_ts]
                eq_refl eq_refl (or_introl (conj eq_refl eq_refl))
                ltac:(discriminate) eq_refl) as [_ H].
  assert (E : snd (analyzeCode (always line5)
                               (filter (shouldInclude md_only "**/*.md") [x_md; y_ts]) pr1)
              = Ok [ {| body := "[GPT-REVIEW] use const"; path := "y.ts";
                        line := Finite 5 0 |} ])
    by (vm_compute; reflexivity).
  rewrite E in H. exact H.
Defined.

Lemma one_comment_per_suggestion_witness :
  exists cs,
    createComment a_ts chunk0 (Arr [suggestion12; suggestion12]) = Ok cs
    /\ List.length cs = 2.
Proof.
  destruct (one_comment_per_suggestion a_ts chunk0 "src/a.ts" [suggestion12; suggestion12])
    as [cs [Hcs [Hlen _]]].
  - split; [reflexivity | discriminate].
  - repeat constructor; exists (Finite 12 0), "fix this";
      apply (suggests _ _ _ [("lineNumber", Str "12"); ("reviewComment", Str "fix this")]
                      (Str "12")); reflexivity.
  - exists cs. split; [exact Hcs | exact Hlen].
Defined.

Lemma no_path_no_comment_witness :
  reviewChunk (always "[null, 7]") no_path pr0 chunk0 start
  = (skipped (createPrompt no_path chunk0 pr0) start, Ok tt).
Proof.
  refine (proj2 (no_path_no_comment (always "[null, 7]") pr0 no_path chunk0 start
                   [Null; Num (Finite 7 0)] _ _)).
  - left. reflexivity.
  - vm_compute. reflexivity.
Defined.

Lemma null_element_throws_witness :
  exists m, createComment a_ts chunk0 (Arr [suggestion12; Null]) = Throw (TypeError m).
Proof.
  apply (null_element_throws a_ts chunk0 "src/a.ts" [suggestion12; Null]).
  - split; [reflexivity | discriminate].
  - right. left. reflexivity.
Defined.

Lemma not_an_array_throws_witness :
  reviewChunk (always "42") a_ts pr0 chunk0 start
  = (skipped (createPrompt a_ts chunk0 pr0) start,
     Throw (TypeError "aiResponses.flatMap is not a function")).
Proof.
  apply (not_an_array_throws (always "42") pr0 a_ts chunk0 start).
  - vm_compute. reflexivity.
  - vm_compute. exact I.
Defined.

Lemma falsy_answer_skipped_witness :
  reviewChunk (always "0") a_ts pr0 chunk0 start
  = (skipped (createPrompt a_ts chunk0 pr0) start, Ok tt).
Proof.
  apply (falsy_answer_skipped (always "0") pr0 a_ts chunk0 start).
  vm_compute. reflexivity.
Defined.

Lemma only_type_errors_witness :
  exists m, TypeError "Cannot read properties of null (reading 'reviewComment')" = TypeError m.
Proof.
  apply (only_type_errors (always "[null]") pr0 [b_ts]).
  vm_compute. reflexivity.
Defined.

Lemma typed_replies_never_throw_witness :
  exists cs, snd (analyzeCode (always line5) [a_ts; no_path; removed; b_ts] pr0) = Ok cs.
Proof.
  apply (typed_replies_never_throw (always line5) pr0).
  intros k prompt. right.
  exists [Obj [("lineNumber", Num (Finite 5 0)); ("reviewComment", Str "use const")]].
  split; [vm_compute; reflexivity|].
  repeat constructor. exists (Finite 5 0), "use const".
  apply (suggests _ _ _ [("lineNumber", Num (Finite 5 0)); ("reviewComment", Str "use const")]
                  (Num (Finite 5 0))); reflexivity.
Defined.

Lemma nothing_readable_witness :
  analyzeCode (always "Looks good to me.") [a_ts; removed; b_ts] pr0
  = ({| sent := prompts pr0 (work [a_ts; removed; b_ts]); comments := [] |}, Ok []).
Proof.
  apply (nothing_readable (always "Looks good to me.") pr0).
  intros k prompt. vm_compute. reflexivity.
Defined.

Lemma comments_in_diff_order_witness :
  [ {| body := "[GPT-REVIEW] fix this"; path := "src/b.ts"; line := Finite 12 0 |};
    {| body := "[GPT-REVIEW] fix this"; path := "src/b.ts"; line := Finite 12 0 |};
    comment12 ]
  = contributions flaky pr0 0 (work [b_ts; a_ts]).
Proof.
  apply (comments_in_diff_order flaky pr0 [b_ts; a_ts]).
  vm_compute. reflexivity.
Defined.

Lemma unsupported_event_skipped_witness :
  main (always line5) md_only two_files (host (Some "diff") "diff") (Ok (event "closed")) ""
  = {| analysis := start; reviews := []; exit := Ok tt |}.
Proof.
  apply (unsupported_event_skipped (always line5) md_only two_files (host (Some "diff") "diff")
           (Ok (event "closed")) "" (event "closed") pr1);
    try reflexivity; discriminate.
Defined.

Lemma empty_diff_skipped_witness :
  main (always line5) md_only two_files (host None "") (Ok (event "synchronize")) ""
  = {| analysis := start; reviews := []; exit := Ok tt |}.
Proof.
  apply (empty_diff_skipped (always line5) md_only two_files (host None "")
           (Ok (event "synchronize")) "" (event "synchronize") pr1);
    try reflexivity.
  right. split; reflexivity.
Defined.

Lemma upstream_failure_ends_run_witness :
  main (always line5) md_only two_files unreachable (Ok (event "opened")) ""
  = {| analysis := start; reviews := []; exit := Throw (Failure "ECONNREFUSED") |}.
Proof.
  apply (upstream_failure_ends_run (always line5) md_only two_files unreachable
           (Ok (event "opened")) "" (Failure "ECONNREFUSED")).
  left. reflexivity.
Defined.

Lemma review_only_after_analysis_witness :
  exists cs,
    snd (analyzeCode (always line5)
                     (filter (shouldInclude md_only "**/*.md") [x_md; y_ts]) pr1) = Ok cs
    /\ cs <> [].
Proof.
  destruct (review_only_after_analysis (always line5) md_only two_files
              (host (Some "diff --git") "") (Ok (event "opened")) "**/*.md"
              (submission pr1 [ {| body := "[GPT-REVIEW] use const"; path := "y.ts";
                                   line := Finite 5 0 |} ]))
    as [ev [prDetails [diff [files [cs [Hev [Hpr [_ [_ [Hparse [Hcs [Hne _]]]]]]]]]]]].
  - vm_compute. left. reflexivity.
  - injection Hpr as <-. injection Hparse as <-. exists cs. split; [exact Hcs | exact Hne].
Defined.

Lemma all_excluded_nothing_done_witness :
  main (always line5) md_only (fun _ => Ok [x_md; x_md]) (host (Some "diff --git") "")
       (Ok (event "opened")) "**/*.json, **/*.md"
  = {| analysis := start; reviews := []; exit := Ok tt |}.
Proof.
  apply (all_excluded_nothing_done (always line5) md_only (fun _ => Ok [x_md; x_md])
           (host (Some "diff --git") "") (Ok (event "opened")) "**/*.json, **/*.md"
           (event "opened") pr1 "diff --git" [x_md; x_md]); try reflexivity.
  - left. split; reflexivity.
  - discriminate.
  - constructor; [|constructor; [|constructor]];
      exists "**/*.md"; (split; [vm_compute; auto | reflexivity]).
Defined.

Lemma digits_give_the_line_witness :
  Number (Some (Str "120")) = Ok (Finite 12 1)
  /\ nonNegativeInteger (Finite 12 1) = true.
Proof.
  apply (digits_give_the_line ["1"%char; "2"%char; "0"%char]);
    [discriminate | reflexivity | apply Z.leb_le; reflexivity].
Defined.

End More.
